(** * CT-vs-MRI analyzer: the upload pipeline of [src/components/Upload.tsx]

    The development embeds [handleFile] (the only place of the repository
    where the decode / normalize / extract / classify pipeline is wired
    together) and checks the statements of the specification against it.

    The bodies of the functions imported from [../lib/dicom] and
    [../lib/analysis] are outside this development.  Where a statement is
    about [handleFile] they are taken as an interface ([Lib]), and the
    statement is proved for every implementation of it; where a statement is
    about one of them alone, a definition modelled on the specification is
    used (module [Spec]).

    Layout: the model comes first (numbers, resizing, the values that cross
    the interfaces, the canvas operations, [handleFile], the library as
    specified, a small implementation to run the model on), then the facts,
    then the statements of the specification one by one. *)

From Stdlib Require Import ZArith QArith Qround Qabs Qminmax Lqa Lia.
From Stdlib Require Import List Bool.
From Stdlib.Strings Require Import String Ascii Byte.
From Stdlib Require Import DecimalString.
From stdpp Require Import base option gmap strings.

Import ListNotations.
Local Open Scope Z_scope.

(* ===================================================================== *)
(** * JavaScript numbers *)
(* ===================================================================== *)

(** JavaScript numbers are IEEE-754 binary64 values.  Every arithmetic
    operation returns the exact result rounded to the nearest representable
    value.  Finite numbers are modelled as rationals and the rounding as a
    function [rnd : Q -> Q]; what is used about it is collected in
    [Float64Rounding]. *)

Module Float64.

(** Unit round-off [2^-53], the smallest subnormal halved [2^-1075], and a
    bound below the overflow threshold. *)
Definition u : Q := 1 # (2 ^ 53).
Definition eta : Q := 1 # (2 ^ 1075).
Definition big : Q := inject_Z (2 ^ 1023).

Record Float64Rounding (rnd : Q -> Q) : Prop := {
  (** rounding is monotone *)
  rnd_mono : forall x y : Q, (x <= y)%Q -> (rnd x <= rnd y)%Q;
  (** integers up to [2^53] are representable *)
  rnd_int : forall n : Z, Z.abs n <= 2 ^ 53 -> (rnd (inject_Z n) == inject_Z n)%Q;
  (** standard error model with gradual underflow *)
  rnd_err : forall x : Q, (Qabs x <= big)%Q ->
                          (Qabs (rnd x - x) <= u * Qabs x + eta)%Q
}.

(** Exact arithmetic is one instance. *)
Definition exact (x : Q) : Q := x.

End Float64.

(* ===================================================================== *)
(** * Resizing ([Upload.tsx], lines 41-44 and 92-95) *)
(* ===================================================================== *)

Section Resize.
Variable rnd : Q -> Q.

(** [Math.min(1, maxDim / Math.max(w, h))].  When both sides are zero the
    quotient is [+Infinity] and the minimum is [1]. *)
Definition fitScale (maxDim w h : Z) : Q :=
  let m := Z.max w h in
  if m =? 0 then 1%Q
  else Qmin 1 (rnd (inject_Z maxDim / inject_Z m)).

(** [Math.max(1, Math.floor(d * scale))]. *)
Definition fitDim (d : Z) (scale : Q) : Z :=
  Z.max 1 (Qfloor (rnd (inject_Z d * scale))).

End Resize.

(* ===================================================================== *)
(** * Values that cross the interfaces of [handleFile] *)
(* ===================================================================== *)

(** What a [throw] or a rejected promise carries: [new Error(message)], a
    [DOMException] raised by a platform call, or the [TypeError] of a call on
    [null].  (A thrown value without a [message] is read at line 116 like
    one whose message is empty.) *)
Inductive Thrown : Type :=
| JsError (message : string)
| DOMException (name message : string)
| TypeError (message : string).

Definition errorName (e : Thrown) : string :=
  match e with
  | JsError _ => "Error"
  | DOMException name _ => name
  | TypeError _ => "TypeError"
  end.

Definition errorMessage (e : Thrown) : string :=
  match e with
  | JsError message => message
  | DOMException _ message => message
  | TypeError message => message
  end.

(** A call that returns or throws. *)
Definition Res (A : Type) : Type := (Thrown + A)%type.

Definition isOk {A : Type} (r : Res A) : bool :=
  match r with inr _ => true | inl _ => false end.

(** The record [parseDicom] returns.  [handleFile] reads the first ten
    fields; the last three belong to the decoded record of the specification
    and are never read by [handleFile].  Rows, columns and the frame count
    are whole numbers. *)
Module DicomInfo.
Record t : Type := {
  rows : option Z;
  columns : option Z;
  pixelData : option (list Z);
  rescaleSlope : option Q;
  rescaleIntercept : option Q;
  windowCenter : option Q;
  windowWidth : option Q;
  modality : option string;
  transferSyntax : option string;
  numberOfFrames : option Z;
  bitsAllocated : option Z;
  pixelRepresentation : option Z;
  photometricInterpretation : option string
}.
End DicomInfo.

(** The object literal passed to [normalizeDicomToGrayscale8] (lines 46-53):
    these six properties and no other. *)
Module NormalizeOptions.
Record t : Type := {
  rows : Z;
  columns : Z;
  rescaleSlope : option Q;
  rescaleIntercept : option Q;
  windowCenter : option Q;
  windowWidth : option Q
}.
End NormalizeOptions.

(** [ImageData]: RGBA bytes, row-major, four per pixel. *)
Module ImageData.
Record t : Type := { data : list Z; width : Z; height : Z }.
End ImageData.

(** A canvas element with its backing bitmap (RGBA bytes). *)
Module Canvas.
Record t : Type := { width : Z; height : Z; bitmap : list Z }.
End Canvas.

(** A decoded [HTMLImageElement]. *)
Module Image.
Record t : Type := { width : Z; height : Z; pixels : list Z }.
End Image.

(** What [drawImage] may draw from. *)
Inductive ImageSource : Type :=
| FromCanvas (c : Canvas.t)
| FromImage (img : Image.t).

Inductive Label : Type := CT | MRI.

(** What [classifyFeatures] returns. *)
Module Classification.
Record t : Type := { label : Label; probabilityCT : Q; probabilityMRI : Q }.
End Classification.

(** Values of the metadata record: [string | number | undefined]. *)
Inductive JsValue : Type :=
| JsUndefined
| JsString (s : string)
| JsNumber (q : Q).

Definition ofString (s : option string) : JsValue :=
  match s with Some s => JsString s | None => JsUndefined end.

Definition ofNumber (q : option Q) : JsValue :=
  match q with Some q => JsNumber q | None => JsUndefined end.

Definition ofInteger (n : option Z) : JsValue :=
  match n with Some n => JsNumber (inject_Z n) | None => JsUndefined end.

(** The type [Result] of lines 7-13. *)
Module Result.
Record t : Type := {
  label : Label;
  probabilityCT : Q;
  probabilityMRI : Q;
  modality : option string;
  meta : option (gmap string JsValue)
}.
End Result.

(** The uploaded [File]: its content, its declared type, and, for a file
    whose content cannot be read, what the read is rejected with. *)
Module File.
Record t : Type := { bytes : list byte; type : string; unreadable : option Thrown }.

(** [await file.arrayBuffer()] (line 30): the content, or the rejection. *)
Definition arrayBuffer (file : t) : Res (list byte) :=
  match unreadable file with
  | Some e => inl e
  | None => inr (bytes file)
  end.
End File.

(** The functions imported from [../lib/dicom] and [../lib/analysis]
    (lines 4-5).  Their bodies are not among the sources; [handleFile] is
    stated over any implementation. *)
Record Lib : Type := {
  Features : Type;
  isLikelyDicom : list byte -> Res bool;
  parseDicom : list byte -> Res (option DicomInfo.t);
  normalizeDicomToGrayscale8 : list Z -> NormalizeOptions.t -> Res (list Z);
  computeFeaturesFromImageData : ImageData.t -> Res Features;
  classifyFeatures : Features -> Res Classification.t
}.

(** What the browser contributes: number rounding, whether the preview
    canvas hands out a 2D context, whether the temporary canvas of line 55
    does once it is sized, the resampling done by [drawImage], the image
    decoder behind [new Image()], and the text it attaches to an exception
    it raises. *)
Record Platform : Type := {
  round64 : Q -> Q;
  hasContext2d : bool;
  hasTempContext2d : Canvas.t -> bool;
  drawImage : Canvas.t -> ImageSource -> Z -> Z -> list Z;
  decodeImage : list byte -> string -> option Image.t;
  exceptionText : string -> string
}.

(* ===================================================================== *)
(** * Canvas operations used by [handleFile] *)
(* ===================================================================== *)

(** Transparent black, [4 * w * h] bytes. *)
Definition blank (w h : Z) : list Z := repeat 0 (Z.to_nat (4 * w * h)).

(** Web IDL's conversion of an integer to [unsigned long]: modulo [2^32]. *)
Definition toUint32 (n : Z) : Z := n mod 2 ^ 32.

(** What a canvas side becomes when [n] is assigned to it: [n] as an
    [unsigned long], and the default side when that exceeds [2^31 - 1]
    (the HTML standard's rule for attributes that reflect an unsigned long). *)
Definition canvasSide (fallback n : Z) : Z :=
  if toUint32 n <=? 2147483647 then toUint32 n else fallback.

(** [canvas.width = w] and [canvas.height = h]: either assignment resets the
    bitmap.  The default canvas is 300 by 150. *)
Definition setWidth (w : Z) (c : Canvas.t) : Canvas.t :=
  {| Canvas.width := canvasSide 300 w; Canvas.height := Canvas.height c;
     Canvas.bitmap := blank (canvasSide 300 w) (Canvas.height c) |}.

Definition setHeight (h : Z) (c : Canvas.t) : Canvas.t :=
  {| Canvas.width := Canvas.width c; Canvas.height := canvasSide 150 h;
     Canvas.bitmap := blank (Canvas.width c) (canvasSide 150 h) |}.

(** [document.createElement('canvas')]: the default canvas is 300 by 150. *)
Definition createCanvas : Canvas.t :=
  {| Canvas.width := 300; Canvas.height := 150; Canvas.bitmap := blank 300 150 |}.

(** [new ImageData(data, sw, sh)], as the HTML standard words it: [sw] and
    [sh] are taken as [unsigned long]; the number of bytes must be a non-zero
    multiple of four ([InvalidStateError] otherwise); the number of pixels
    must be a multiple of [sw], and the quotient must be [sh]
    ([IndexSizeError] otherwise). *)
Definition newImageData (exceptionText : string -> string)
    (data : list Z) (sw sh : Z) : Res ImageData.t :=
  let sw := toUint32 sw in
  let sh := toUint32 sh in
  let length := Z.of_nat (List.length data) in
  if (length =? 0) || negb (length mod 4 =? 0) then
    inl (DOMException "InvalidStateError" (exceptionText "InvalidStateError"))
  else
    let length := length / 4 in
    if (sw =? 0) || negb (length mod sw =? 0) then
      inl (DOMException "IndexSizeError" (exceptionText "IndexSizeError"))
    else if negb (length / sw =? sh) then
      inl (DOMException "IndexSizeError" (exceptionText "IndexSizeError"))
    else
      inr {| ImageData.data := data; ImageData.width := sw; ImageData.height := sh |}.

(** The four bytes of pixel [(x, y)]; transparent black outside the canvas. *)
Definition pixelAt (c : Canvas.t) (x y : Z) : list Z :=
  if (0 <=? x) && (x <? Canvas.width c) && (0 <=? y) && (y <? Canvas.height c) then
    let i := Z.to_nat (4 * (y * Canvas.width c + x)) in
    map (fun k => nth (i + k)%nat (Canvas.bitmap c) 0) [0%nat; 1%nat; 2%nat; 3%nat]
  else [0; 0; 0; 0].

Definition upto (n : Z) : list Z := map Z.of_nat (seq 0 (Z.to_nat n)).

(** [ctx.putImageData(imageData, 0, 0)]: every pixel of the image that lies
    on the canvas replaces the canvas pixel at the same place; the other
    canvas pixels stay. *)
Definition putImageData (c : Canvas.t) (img : ImageData.t) : Canvas.t :=
  {| Canvas.width := Canvas.width c; Canvas.height := Canvas.height c;
     Canvas.bitmap :=
       flat_map (fun y =>
         flat_map (fun x =>
           if (x <? ImageData.width img) && (y <? ImageData.height img) then
             let i := Z.to_nat (4 * (y * ImageData.width img + x)) in
             map (fun k => nth (i + k)%nat (ImageData.data img) 0)
                 [0%nat; 1%nat; 2%nat; 3%nat]
           else pixelAt c x y)
         (upto (Canvas.width c)))
       (upto (Canvas.height c)) |}.

(** [ctx.getImageData(0, 0, sw, sh)]. *)
Definition getImageData (exceptionText : string -> string)
    (c : Canvas.t) (sw sh : Z) : Res ImageData.t :=
  if (sw =? 0) || (sh =? 0) then
    inl (DOMException "IndexSizeError" (exceptionText "IndexSizeError"))
  else
    inr {| ImageData.data :=
             flat_map (fun y => flat_map (fun x => pixelAt c x y) (upto sw)) (upto sh);
           ImageData.width := sw;
           ImageData.height := sh |}.

(* ===================================================================== *)
(** * [handleFile] ([Upload.tsx], lines 24-120) *)
(* ===================================================================== *)

(** Code that mutates the canvas and may throw: the canvas as it stands
    when the call returns or throws, and the outcome. *)
Definition Eff (A : Type) : Type := Canvas.t -> Canvas.t * Res A.

Definition ret {A : Type} (a : A) : Eff A := fun c => (c, inr a).

Definition bind {A B : Type} (m : Eff A) (k : A -> Eff B) : Eff B :=
  fun c =>
    match m c with
    | (c', inr a) => k a c'
    | (c', inl e) => (c', inl e)
    end.

(** A call that does not touch the canvas. *)
Definition call {A : Type} (r : Res A) : Eff A := fun c => (c, r).

(** A canvas update that cannot throw. *)
Definition update (f : Canvas.t -> Canvas.t) : Eff unit := fun c => (f c, inr tt).

Definition readCanvas : Eff Canvas.t := fun c => (c, inr c).

Notation "'let!' x ':=' e 'in' k" := (bind e (fun x => k))
  (at level 10, x name, e at level 100, k at level 200, only parsing).

Notation "e ';;' k" := (bind e (fun _ => k))
  (at level 100, k at level 200, right associativity, only parsing).

(** JavaScript truthiness of an optional number ([undefined] and [0] are
    falsy) and of an optional object. *)
Definition truthyNumber (n : option Z) : bool :=
  match n with Some n => negb (n =? 0) | None => false end.

Definition truthyObject {A : Type} (o : option A) : bool :=
  match o with Some _ => true | None => false end.

(** Reading a property the guard of line 39 has shown to be present. *)
Definition number (n : option Z) : Z := default 0 n.
Definition samples (o : option (list Z)) : list Z := default [] o.

(** Lines 38-39: the two guards on the parsed record. *)
Definition checkParsed (parsed : option DicomInfo.t) : Res DicomInfo.t :=
  match parsed with
  | None => inl (JsError "Failed to parse DICOM")
  | Some info =>
      if negb (truthyNumber (DicomInfo.rows info))
         || negb (truthyNumber (DicomInfo.columns info))
         || negb (truthyObject (DicomInfo.pixelData info))
      then inl (JsError "Missing pixel data")
      else inr info
  end.

(** Lines 46-53: the options object built for the normalizer. *)
Definition normalizeOptions (info : DicomInfo.t) : NormalizeOptions.t :=
  {| NormalizeOptions.rows := number (DicomInfo.rows info);
     NormalizeOptions.columns := number (DicomInfo.columns info);
     NormalizeOptions.rescaleSlope := DicomInfo.rescaleSlope info;
     NormalizeOptions.rescaleIntercept := DicomInfo.rescaleIntercept info;
     NormalizeOptions.windowCenter := DicomInfo.windowCenter info;
     NormalizeOptions.windowWidth := DicomInfo.windowWidth info |}.

(** Lines 77-87: the metadata record. *)
Definition metaOf (info : DicomInfo.t) : gmap string JsValue :=
  <["modality" := ofString (DicomInfo.modality info)]>
  (<["transferSyntax" := ofString (DicomInfo.transferSyntax info)]>
  (<["rows" := ofInteger (DicomInfo.rows info)]>
  (<["columns" := ofInteger (DicomInfo.columns info)]>
  (<["windowCenter" := ofNumber (DicomInfo.windowCenter info)]>
  (<["windowWidth" := ofNumber (DicomInfo.windowWidth info)]>
  (<["rescaleSlope" := ofNumber (DicomInfo.rescaleSlope info)]>
  (<["rescaleIntercept" := ofNumber (DicomInfo.rescaleIntercept info)]>
  (<["frames" := ofInteger (DicomInfo.numberOfFrames info)]> ∅)))))))).

(** The property names of the metadata record, in source order. *)
Definition metaFields : list string :=
  ["modality"; "transferSyntax"; "rows"; "columns"; "windowCenter";
   "windowWidth"; "rescaleSlope"; "rescaleIntercept"; "frames"]%string.

(** The component state [handleFile] writes: [result], [error], [loading]. *)
Module Ui.
Record t : Type := {
  result : option Result.t;
  error : option string;
  loading : bool
}.
End Ui.

(** Everything [handleFile] can change: component state and the preview
    canvas. *)
Module World.
Record t : Type := { ui : Ui.t; canvas : Canvas.t }.
End World.

(** The state update a run ends with: [setResult], [setError], or neither
    (an exception inside the [onload] handler is not caught by the [try]). *)
Inductive Outcome : Type :=
| SetResult (r : Result.t)
| SetError (message : string)
| NoUpdate.

(** Line 116: [e?.message || 'Unexpected error']. *)
Definition catchMessage (e : Thrown) : string :=
  if String.eqb (errorMessage e) "" then "Unexpected error" else errorMessage e.

(** Line 112: [file.type || 'application/octet-stream']. *)
Definition blobType (file : File.t) : string :=
  if String.eqb (File.type file) "" then "application/octet-stream" else File.type file.

Section HandleFile.
Variable L : Lib.
Variable P : Platform.

(** Lines 46-53: the call of the normalizer. *)
Definition normalizeCall (info : DicomInfo.t) : Res (list Z) :=
  normalizeDicomToGrayscale8 L (samples (DicomInfo.pixelData info))
                             (normalizeOptions info).

(** Lines 55-57: the temporary canvas, sized to the record's columns and
    rows. *)
Definition sizedTemp (info : DicomInfo.t) : Canvas.t :=
  setHeight (number (DicomInfo.rows info))
            (setWidth (number (DicomInfo.columns info)) createCanvas).

(** Lines 46-60, up to the point where [putImageData] is entered: the
    normalizer's buffer goes into [new ImageData] as it is, with the
    record's columns and rows as width and height; then [tctx.putImageData]
    is a call on [null], a [TypeError], when the temporary canvas gave no
    context at line 58. *)
Definition renderDicom (info : DicomInfo.t) : Res ImageData.t :=
  match normalizeCall info with
  | inl e => inl e
  | inr rgba =>
      match newImageData (exceptionText P) rgba
                         (number (DicomInfo.columns info))
                         (number (DicomInfo.rows info)) with
      | inl e => inl e
      | inr imageData =>
          if hasTempContext2d P (sizedTemp info) then inr imageData
          else inl (TypeError (exceptionText P "TypeError"))
      end
  end.

(** Lines 62-68 and 96-102: size the preview canvas, draw the source
    scaled to it, read the pixels back.  (The smoothing settings of lines
    64-65 and 98-99 are part of what [drawImage] computes.  [drawImage]
    throws on a source canvas without pixels; the temporary canvas is never
    one, see [temp_canvas_not_empty].) *)
Definition drawAndRead (source : ImageSource) (width height : Z) : Eff ImageData.t :=
  update (setWidth width) ;;
  update (setHeight height) ;;
  update (fun c => {| Canvas.width := Canvas.width c;
                      Canvas.height := Canvas.height c;
                      Canvas.bitmap := drawImage P c source width height |}) ;;
  let! c := readCanvas in
  call (getImageData (exceptionText P) c width height).

(** Lines 41-68: from the checked record to the raster that is analyzed. *)
Definition analyzeParsed (info : DicomInfo.t) : Eff ImageData.t :=
  let columns := number (DicomInfo.columns info) in
  let rows := number (DicomInfo.rows info) in
  let maxDim := 512 in
  let scale := fitScale (round64 P) maxDim columns rows in
  let width := fitDim (round64 P) columns scale in
  let height := fitDim (round64 P) rows scale in
  let temp := sizedTemp info in
  let! imageData := call (renderDicom info) in
  let temp := putImageData temp imageData in
  drawAndRead (FromCanvas temp) width height.

(** Lines 69-70 and 103-104: features, then the classifier.  The analyzed
    raster is the only argument. *)
Definition classifyAnalyzed (analyzed : ImageData.t) : Res Classification.t :=
  match computeFeaturesFromImageData L analyzed with
  | inl e => inl e
  | inr features => classifyFeatures L features
  end.

(** Lines 72-88: the value given to [setResult] on the DICOM branch. *)
Definition dicomResult (info : DicomInfo.t) (classification : Classification.t)
    : Result.t :=
  {| Result.label := Classification.label classification;
     Result.probabilityCT := Classification.probabilityCT classification;
     Result.probabilityMRI := Classification.probabilityMRI classification;
     Result.modality := DicomInfo.modality info;
     Result.meta := Some (metaOf info) |}.

(** Lines 41-70: from the checked record to the classification. *)
Definition classifyDicom (info : DicomInfo.t) : Eff Classification.t :=
  let! analyzed := analyzeParsed info in
  call (classifyAnalyzed analyzed).

(** Lines 37-88: the DICOM branch. *)
Definition dicomBranch (arrayBuffer : list byte) : Eff Result.t :=
  let! parsed := call (parseDicom L arrayBuffer) in
  let! info := call (checkParsed parsed) in
  let! classification := classifyDicom info in
  ret (dicomResult info classification).

(** Lines 92-102: the raster analyzed on the generic-image branch. *)
Definition analyzeImage (img : Image.t) : Eff ImageData.t :=
  let maxDim := 768 in
  let scale := fitScale (round64 P) maxDim (Image.width img) (Image.height img) in
  let width := fitDim (round64 P) (Image.width img) scale in
  let height := fitDim (round64 P) (Image.height img) scale in
  drawAndRead (FromImage img) width height.

(** Lines 91-110: the [onload] handler. *)
Definition onload (img : Image.t) : Eff Result.t :=
  let! analyzed := analyzeImage img in
  let! classification := call (classifyAnalyzed analyzed) in
  ret {| Result.label := Classification.label classification;
         Result.probabilityCT := Classification.probabilityCT classification;
         Result.probabilityMRI := Classification.probabilityMRI classification;
         Result.modality := None;
         Result.meta := None |}.

(** The body of the [try] with its [catch], and the image events of the
    generic branch.  Whatever is thrown inside the [try] (a rejected read of
    the file, the missing context, an exception of [isLikelyDicom] or of the
    DICOM branch) ends in [setError]; what is thrown inside [onload] does
    not.  The preview canvas is mounted when a file is chosen. *)
Definition run (file : File.t) (c : Canvas.t) : Canvas.t * Outcome :=
  match File.arrayBuffer file with
  | inl e => (c, SetError (catchMessage e))
  | inr bytes =>
      if negb (hasContext2d P) then
        (c, SetError (catchMessage (JsError "Canvas context unavailable")))
      else
        match isLikelyDicom L bytes with
        | inl e => (c, SetError (catchMessage e))
        | inr true =>
            match dicomBranch bytes c with
            | (c', inr r) => (c', SetResult r)
            | (c', inl e) => (c', SetError (catchMessage e))
            end
        | inr false =>
            match decodeImage P bytes (blobType file) with
            | None => (c, SetError "Failed to load image")
            | Some img =>
                match onload img c with
                | (c', inr r) => (c', SetResult r)
                | (c', inl _) => (c', NoUpdate)
                end
            end
        end
  end.

(** [handleFile]: [setError(null)], [setResult(null)], the run, and
    [setLoading(false)] at the end. *)
Definition handleFile (file : File.t) (w : World.t) : World.t :=
  let (c, outcome) := run file (World.canvas w) in
  {| World.ui :=
       {| Ui.result := match outcome with SetResult r => Some r | _ => None end;
          Ui.error := match outcome with SetError m => Some m | _ => None end;
          Ui.loading := false |};
     World.canvas := c |}.
End HandleFile.

(** Records that differ from [info] only in the photometric interpretation,
    or only in the declared sample width and signedness. *)
Definition withPhotometric (photometric : option string) (info : DicomInfo.t)
    : DicomInfo.t :=
  {| DicomInfo.rows := DicomInfo.rows info;
     DicomInfo.columns := DicomInfo.columns info;
     DicomInfo.pixelData := DicomInfo.pixelData info;
     DicomInfo.rescaleSlope := DicomInfo.rescaleSlope info;
     DicomInfo.rescaleIntercept := DicomInfo.rescaleIntercept info;
     DicomInfo.windowCenter := DicomInfo.windowCenter info;
     DicomInfo.windowWidth := DicomInfo.windowWidth info;
     DicomInfo.modality := DicomInfo.modality info;
     DicomInfo.transferSyntax := DicomInfo.transferSyntax info;
     DicomInfo.numberOfFrames := DicomInfo.numberOfFrames info;
     DicomInfo.bitsAllocated := DicomInfo.bitsAllocated info;
     DicomInfo.pixelRepresentation := DicomInfo.pixelRepresentation info;
     DicomInfo.photometricInterpretation := photometric |}.

Definition withSampleFormat (bits representation : option Z) (info : DicomInfo.t)
    : DicomInfo.t :=
  {| DicomInfo.rows := DicomInfo.rows info;
     DicomInfo.columns := DicomInfo.columns info;
     DicomInfo.pixelData := DicomInfo.pixelData info;
     DicomInfo.rescaleSlope := DicomInfo.rescaleSlope info;
     DicomInfo.rescaleIntercept := DicomInfo.rescaleIntercept info;
     DicomInfo.windowCenter := DicomInfo.windowCenter info;
     DicomInfo.windowWidth := DicomInfo.windowWidth info;
     DicomInfo.modality := DicomInfo.modality info;
     DicomInfo.transferSyntax := DicomInfo.transferSyntax info;
     DicomInfo.numberOfFrames := DicomInfo.numberOfFrames info;
     DicomInfo.bitsAllocated := bits;
     DicomInfo.pixelRepresentation := representation;
     DicomInfo.photometricInterpretation := DicomInfo.photometricInterpretation info |}.

(** Records that differ from [info] only in the three values that go to
    the display and nowhere else. *)
Definition withDisplayValues (modality transferSyntax : option string)
    (frames : option Z) (info : DicomInfo.t) : DicomInfo.t :=
  {| DicomInfo.rows := DicomInfo.rows info;
     DicomInfo.columns := DicomInfo.columns info;
     DicomInfo.pixelData := DicomInfo.pixelData info;
     DicomInfo.rescaleSlope := DicomInfo.rescaleSlope info;
     DicomInfo.rescaleIntercept := DicomInfo.rescaleIntercept info;
     DicomInfo.windowCenter := DicomInfo.windowCenter info;
     DicomInfo.windowWidth := DicomInfo.windowWidth info;
     DicomInfo.modality := modality;
     DicomInfo.transferSyntax := transferSyntax;
     DicomInfo.numberOfFrames := frames;
     DicomInfo.bitsAllocated := DicomInfo.bitsAllocated info;
     DicomInfo.pixelRepresentation := DicomInfo.pixelRepresentation info;
     DicomInfo.photometricInterpretation := DicomInfo.photometricInterpretation info |}.

(** The properties of the parsed record that [handleFile] reads (lines 39
    to 86): two records that agree on them are the same to it. *)
Definition sameReadFields (a b : DicomInfo.t) : Prop :=
  DicomInfo.rows a = DicomInfo.rows b
  /\ DicomInfo.columns a = DicomInfo.columns b
  /\ DicomInfo.pixelData a = DicomInfo.pixelData b
  /\ DicomInfo.rescaleSlope a = DicomInfo.rescaleSlope b
  /\ DicomInfo.rescaleIntercept a = DicomInfo.rescaleIntercept b
  /\ DicomInfo.windowCenter a = DicomInfo.windowCenter b
  /\ DicomInfo.windowWidth a = DicomInfo.windowWidth b
  /\ DicomInfo.modality a = DicomInfo.modality b
  /\ DicomInfo.transferSyntax a = DicomInfo.transferSyntax b
  /\ DicomInfo.numberOfFrames a = DicomInfo.numberOfFrames b.

(** The library [L] with every record its decoder returns passed through
    [f]. *)
Definition mapParsed (f : DicomInfo.t -> DicomInfo.t) (L : Lib) : Lib :=
  {| Features := Features L;
     isLikelyDicom := isLikelyDicom L;
     parseDicom := fun arrayBuffer =>
       match parseDicom L arrayBuffer with
       | inl e => inl e
       | inr parsed => inr (option_map f parsed)
       end;
     normalizeDicomToGrayscale8 := normalizeDicomToGrayscale8 L;
     computeFeaturesFromImageData := computeFeaturesFromImageData L;
     classifyFeatures := classifyFeatures L |}.

(** A stage either leaves the canvas as it found it, with an outcome that
    does not depend on the canvas, or it leaves a canvas and an outcome that
    both do not depend on the canvas it found. *)
Definition canvasBlind {A : Type} (m : Canvas.t -> Canvas.t * A) : Prop :=
  (exists a, forall c, m c = (c, a)) \/ (exists k a, forall c, m c = (k, a)).

(** Integers a JavaScript number holds exactly. *)
Definition safeInteger (n : Z) : Prop := 0 <= n <= 2 ^ 53.

(** Two rasters are complementary when each byte of the first is [255]
    minus the byte of the second at the same position. *)
Definition complementary (a b : list Z) : Prop :=
  Forall2 (fun x y => x = 255 - y) a b.

(* ===================================================================== *)
(** * The library functions as the specification describes them *)
(* ===================================================================== *)

Module Spec.

(** Modelled from the spec: the magic literal ["DICM"] that
    [isLikelyDicom] (missing) looks for. *)
Definition magic : list byte := list_byte_of_string "DICM".

Definition byteIs (buffer : list byte) (offset : nat) (b : byte) : bool :=
  match nth_error buffer offset with
  | Some x => Byte.eqb x b
  | None => false
  end.

(** Modelled from the spec: [isLikelyDicom] of [../lib/dicom] is missing from
    the sources.  Sections 4.2 and 6: a probe that only tests the four-byte
    literal at offset 128, false for short and empty buffers. *)
Definition isLikelyDicom (buffer : list byte) : bool :=
  (132 <=? List.length buffer)%nat
  && byteIs buffer 128 x44 && byteIs buffer 129 x49
  && byteIs buffer 130 x43 && byteIs buffer 131 x4d.

Inductive PixelRepresentation : Type := Unsigned | Signed.

Inductive Photometric : Type := MONOCHROME1 | MONOCHROME2 | OtherPhotometric.

Inductive NormalizeError : Type := UnsupportedBitDepthError.

(** The parameters of [normalize] (section 4.3), with the photometric
    interpretation its step 5 reads. *)
Module Params.
Record t : Type := {
  rows : Z;
  columns : Z;
  bitsAllocated : Z;
  pixelRepresentation : PixelRepresentation;
  rescaleSlope : Q;
  rescaleIntercept : Q;
  windowCenter : option Q;
  windowWidth : option Q;
  photometricInterpretation : Photometric
}.
End Params.

Module GrayscaleRaster.
Record t : Type := { width : Z; height : Z; samples : list Z }.
End GrayscaleRaster.

(** Modelled from the spec: part of the missing normalizer, step 1.  Two's
    complement reading of a [bits]-wide word. *)
Definition asSigned (bits : Z) (v : Z) : Z :=
  if v <? 2 ^ (bits - 1) then v else v - 2 ^ bits.

Definition withSign (rep : PixelRepresentation) (bits : Z) (v : Z) : Z :=
  match rep with Unsigned => v | Signed => asSigned bits v end.

(** Modelled from the spec: part of the missing normalizer, step 1.
    Little-endian 16-bit words of a byte sequence. *)
Fixpoint words16 (data : list Z) : list Z :=
  match data with
  | lo :: hi :: rest => (lo + 256 * hi) :: words16 rest
  | _ => []
  end.

(** Modelled from the spec: part of the missing normalizer.  Step 1: the
    first [count] samples of the declared width and signedness; a width other
    than 8 or 16 is refused. *)
Definition decodeSamples (bits : Z) (rep : PixelRepresentation)
    (pixelData : list Z) (count : Z) : NormalizeError + list Z :=
  if bits =? 8 then inr (firstn (Z.to_nat count) (map (withSign rep 8) pixelData))
  else if bits =? 16 then inr (firstn (Z.to_nat count) (map (withSign rep 16) (words16 pixelData)))
  else inl UnsupportedBitDepthError.

(** Modelled from the spec: part of the missing normalizer.  Step 2: the
    linear rescale. *)
Definition rescale (slope intercept : Q) (sample : Z) : Q :=
  inject_Z sample * slope + intercept.

Definition minimum (values : list Q) : Q :=
  match values with [] => 0 | v :: rest => fold_right Qmin v rest end.

Definition maximum (values : list Q) : Q :=
  match values with [] => 0 | v :: rest => fold_right Qmax v rest end.

(** Modelled from the spec: part of the missing normalizer.  Step 3: the
    display window [(center, width)], taken as given when both values are
    present and derived from minimum and maximum otherwise, at least 1 wide. *)
Definition window (center width : option Q) (values : list Q) : Q * Q :=
  match center, width with
  | Some c, Some w => (c, w)
  | _, _ =>
      let lo := minimum values in
      let hi := maximum values in
      (((lo + hi) / 2)%Q, Qmax 1 (hi - lo)%Q)
  end.

Definition clamp (lo hi x : Q) : Q := Qmax lo (Qmin hi x).

Section Normalize.
(** How a real value in [[0, 255]] becomes a byte is left open by the
    specification. *)
Variable quantize : Q -> Z.

(** Modelled from the spec: part of the missing normalizer.  Steps 4 and 5
    for one value: the window goes linearly onto [[0, 255]], values outside
    are clamped, MONOCHROME1 inverts. *)
Definition toGray (win : Q * Q) (photometric : Photometric) (value : Q) : Z :=
  let center := fst win in
  let width := snd win in
  let mapped := clamp 0 255 ((value - (center - width / 2)) / width * 255) in
  match photometric with
  | MONOCHROME1 => 255 - quantize mapped
  | _ => quantize mapped
  end.

(** Modelled from the spec: [normalizeDicomToGrayscale8] of
    [../lib/analysis] is missing from the sources.  Section 4.3, steps 1
    to 5, with a flat 8-bit raster as output. *)
Definition normalize (pixelData : list Z) (p : Params.t)
    : NormalizeError + GrayscaleRaster.t :=
  match decodeSamples (Params.bitsAllocated p) (Params.pixelRepresentation p)
                      pixelData (Params.rows p * Params.columns p) with
  | inl e => inl e
  | inr stored =>
      let values := map (rescale (Params.rescaleSlope p) (Params.rescaleIntercept p)) stored in
      let win := window (Params.windowCenter p) (Params.windowWidth p) values in
      inr {| GrayscaleRaster.width := Params.columns p;
             GrayscaleRaster.height := Params.rows p;
             GrayscaleRaster.samples :=
               map (toGray win (Params.photometricInterpretation p)) values |}
  end.
End Normalize.

(** Rounding to the nearest integer, halves upwards. *)
Definition roundHalfUp (x : Q) : Z := Qfloor (x + (1 # 2)).

Section Classify.
Variable rnd : Q -> Q.
(** The logistic function as the platform computes it. *)
Variable sigmoid : Q -> Q.
(** Fixed constants, tuned offline. *)
Variable bias : Q.
Variable weights : list Q.

(** Modelled from the spec: part of the missing classifier.  The weighted
    sum [bias + sum of weight_i * feature_i], each operation rounded. *)
Definition score (features : list Q) : Q :=
  fold_left (fun acc wf => rnd (acc + rnd (fst wf * snd wf)))
            (combine weights features) bias.

(** Modelled from the spec: [classifyFeatures] of [../lib/analysis] is
    missing from the sources.  Section 4.5: weighted sum, sigmoid,
    complement, threshold at one half with the tie going to CT. *)
Definition classify (features : list Q) : Classification.t :=
  let probabilityCT := sigmoid (score features) in
  let probabilityMRI := rnd (1 - probabilityCT) in
  {| Classification.label := if Qle_bool (1 # 2) probabilityCT then CT else MRI;
     Classification.probabilityCT := probabilityCT;
     Classification.probabilityMRI := probabilityMRI |}.
End Classify.

(** A piecewise-linear stand-in for the logistic function. *)
Definition hardSigmoid (x : Q) : Q := Qmax 0 (Qmin 1 ((1 # 2) + x / 4)).

End Spec.

(* ===================================================================== *)
(** * A small implementation of the interfaces *)
(* ===================================================================== *)

(** The two-by-two study of the specification's scenarios, and stand-ins for
    the library and the browser on which [handleFile] can be run. *)
Module Example.

Definition info : DicomInfo.t :=
  {| DicomInfo.rows := Some 2;
     DicomInfo.columns := Some 2;
     DicomInfo.pixelData := Some [0; 85; 170; 255];
     DicomInfo.rescaleSlope := None;
     DicomInfo.rescaleIntercept := None;
     DicomInfo.windowCenter := None;
     DicomInfo.windowWidth := None;
     DicomInfo.modality := Some "CT"%string;
     DicomInfo.transferSyntax := Some "1.2.840.10008.1.2.1"%string;
     DicomInfo.numberOfFrames := None;
     DicomInfo.bitsAllocated := Some 8;
     DicomInfo.pixelRepresentation := Some 0;
     DicomInfo.photometricInterpretation := Some "MONOCHROME2"%string |}.

(** The same study with [Rows = 0]. *)
Definition infoNoRows : DicomInfo.t :=
  {| DicomInfo.rows := Some 0;
     DicomInfo.columns := Some 2;
     DicomInfo.pixelData := Some [0; 85; 170; 255];
     DicomInfo.rescaleSlope := None;
     DicomInfo.rescaleIntercept := None;
     DicomInfo.windowCenter := None;
     DicomInfo.windowWidth := None;
     DicomInfo.modality := Some "CT"%string;
     DicomInfo.transferSyntax := Some "1.2.840.10008.1.2.1"%string;
     DicomInfo.numberOfFrames := None;
     DicomInfo.bitsAllocated := Some 8;
     DicomInfo.pixelRepresentation := Some 0;
     DicomInfo.photometricInterpretation := Some "MONOCHROME2"%string |}.

(** The same study declared [2^32 + 2] columns wide. *)
Definition infoWide : DicomInfo.t :=
  {| DicomInfo.rows := Some 2;
     DicomInfo.columns := Some 4294967298;
     DicomInfo.pixelData := Some [0; 85; 170; 255];
     DicomInfo.rescaleSlope := None;
     DicomInfo.rescaleIntercept := None;
     DicomInfo.windowCenter := None;
     DicomInfo.windowWidth := None;
     DicomInfo.modality := Some "CT"%string;
     DicomInfo.transferSyntax := Some "1.2.840.10008.1.2.1"%string;
     DicomInfo.numberOfFrames := None;
     DicomInfo.bitsAllocated := Some 8;
     DicomInfo.pixelRepresentation := Some 0;
     DicomInfo.photometricInterpretation := Some "MONOCHROME2"%string |}.

(** The same study with an empty pixel buffer. *)
Definition infoNoPixels : DicomInfo.t :=
  {| DicomInfo.rows := Some 2;
     DicomInfo.columns := Some 2;
     DicomInfo.pixelData := Some [];
     DicomInfo.rescaleSlope := None;
     DicomInfo.rescaleIntercept := None;
     DicomInfo.windowCenter := None;
     DicomInfo.windowWidth := None;
     DicomInfo.modality := Some "CT"%string;
     DicomInfo.transferSyntax := Some "1.2.840.10008.1.2.1"%string;
     DicomInfo.numberOfFrames := None;
     DicomInfo.bitsAllocated := Some 8;
     DicomInfo.pixelRepresentation := Some 0;
     DicomInfo.photometricInterpretation := Some "MONOCHROME2"%string |}.

(** Gray samples as opaque RGBA pixels. *)
Definition toRgba (gray : list Z) : list Z :=
  flat_map (fun v => [v; v; v; 255]) gray.

Definition total (values : list Z) : Z := fold_right Z.add 0 values.

(** A library whose decoder always answers [parsed]. *)
Definition libWith (parsed : Res (option DicomInfo.t)) : Lib :=
  {| Features := Q;
     isLikelyDicom := fun bytes => inr (Spec.isLikelyDicom bytes);
     parseDicom := fun _ => parsed;
     normalizeDicomToGrayscale8 := fun pixelData _ => inr (toRgba pixelData);
     computeFeaturesFromImageData := fun img =>
       inr (inject_Z (total (ImageData.data img))
            / inject_Z (255 * Z.of_nat (List.length (ImageData.data img))))%Q;
     classifyFeatures := fun mean =>
       inr (Spec.classify Float64.exact Spec.hardSigmoid (-(1 # 2)) [1%Q] [mean]) |}.

Definition lib : Lib := libWith (inr (Some info)).

(** The same library with a normalizer that returns the flat raster, one
    byte per pixel. *)
Definition flatLib : Lib :=
  {| Features := Features lib;
     isLikelyDicom := isLikelyDicom lib;
     parseDicom := parseDicom lib;
     normalizeDicomToGrayscale8 := fun pixelData _ => inr pixelData;
     computeFeaturesFromImageData := computeFeaturesFromImageData lib;
     classifyFeatures := classifyFeatures lib |}.

(** A browser with exact arithmetic and a resampler that copies a source of
    the requested size and paints opaque black otherwise. *)
Definition platform : Platform :=
  {| round64 := Float64.exact;
     hasContext2d := true;
     hasTempContext2d := fun _ => true;
     drawImage := fun _ source w h =>
       match source with
       | FromCanvas t =>
           if (Canvas.width t =? w) && (Canvas.height t =? h) then Canvas.bitmap t
           else toRgba (repeat 0 (Z.to_nat (w * h)))
       | FromImage img =>
           if (Image.width img =? w) && (Image.height img =? h) then Image.pixels img
           else toRgba (repeat 0 (Z.to_nat (w * h)))
       end;
     decodeImage := fun bytes _ =>
       match bytes with
       | [] => None
       | b :: _ =>
           let v := Z.of_N (Byte.to_N b) in
           Some {| Image.width := 1; Image.height := 1; Image.pixels := [v; v; v; 255] |}
       end;
     exceptionText := fun name => name |}.

(** A file with the DICOM preamble and magic, and one without. *)
Definition dicomFile : File.t :=
  {| File.bytes := repeat x00 128 ++ Spec.magic; File.type := "";
     File.unreadable := None |}.

Definition pngFile : File.t :=
  {| File.bytes := [x89; x50; x4e; x47]; File.type := "image/png";
     File.unreadable := None |}.

(** The parameters of the specification's second scenario: slope 2,
    intercept -50, no window; and the same study with slope -1. *)
Definition params : Spec.Params.t :=
  {| Spec.Params.rows := 2;
     Spec.Params.columns := 2;
     Spec.Params.bitsAllocated := 8;
     Spec.Params.pixelRepresentation := Spec.Unsigned;
     Spec.Params.rescaleSlope := 2;
     Spec.Params.rescaleIntercept := -50;
     Spec.Params.windowCenter := None;
     Spec.Params.windowWidth := None;
     Spec.Params.photometricInterpretation := Spec.MONOCHROME2 |}.

Definition paramsNegativeSlope : Spec.Params.t :=
  {| Spec.Params.rows := 2;
     Spec.Params.columns := 2;
     Spec.Params.bitsAllocated := 8;
     Spec.Params.pixelRepresentation := Spec.Unsigned;
     Spec.Params.rescaleSlope := -1;
     Spec.Params.rescaleIntercept := 0;
     Spec.Params.windowCenter := None;
     Spec.Params.windowWidth := None;
     Spec.Params.photometricInterpretation := Spec.MONOCHROME2 |}.

(** The second scenario read as MONOCHROME1. *)
Definition paramsMonochrome1 : Spec.Params.t :=
  {| Spec.Params.rows := 2;
     Spec.Params.columns := 2;
     Spec.Params.bitsAllocated := 8;
     Spec.Params.pixelRepresentation := Spec.Unsigned;
     Spec.Params.rescaleSlope := 2;
     Spec.Params.rescaleIntercept := -50;
     Spec.Params.windowCenter := None;
     Spec.Params.windowWidth := None;
     Spec.Params.photometricInterpretation := Spec.MONOCHROME1 |}.

Definition world : World.t :=
  {| World.ui := {| Ui.result := None; Ui.error := None; Ui.loading := false |};
     World.canvas := createCanvas |}.

End Example.

(* ===================================================================== *)
(** * The rest of the component ([Upload.tsx], lines 18-20 and 122-173) *)
(* ===================================================================== *)

(** Lines 17-20: the state the component is mounted with, and its preview
    canvas, a canvas element nothing has drawn on yet. *)
Definition initialWorld : World.t :=
  {| World.ui := {| Ui.result := None; Ui.error := None; Ui.loading := false |};
     World.canvas := createCanvas |}.

(** Lines 122-126: [onChange] handles the first selected file and returns
    at once when the selection is empty. *)
Definition onChange (L : Lib) (P : Platform) (files : list File.t) (w : World.t)
    : World.t :=
  match files with
  | [] => w
  | file :: _ => handleFile L P file w
  end.

(** One selection after the other, each handled to its end: a selection is
    made after the load or error event of the previous upload has fired. *)
Definition session (L : Lib) (P : Platform) (selections : list (list File.t))
    (w : World.t) : World.t :=
  fold_left (fun w files => onChange L P files w) selections w.

(** The state between two uploads: nothing is loading, result and error are
    not both set, and an error that is set has a text. *)
Definition settled (ui : Ui.t) : Prop :=
  Ui.loading ui = false
  /\ (Ui.result ui = None \/ Ui.error ui = None)
  /\ (forall m : string, Ui.error ui = Some m -> m <> ""%string).

(** [Number.prototype.toFixed(1)] for a finite number below [1e21]: the sign
    is split off, [n] is the integer nearest to ten times the absolute value
    (the larger one on a tie), and the text is the digits of [n] with a point
    before the last one. *)
Definition tenths (x : Q) : Z := Qfloor (Qabs x * 10 + (1 # 2)).

Definition decimal (n : Z) : string := NilZero.string_of_uint (N.to_uint (Z.to_N n)).

Definition fixed1 (n : Z) : string :=
  (decimal (n / 10) ++ "." ++ decimal (n mod 10))%string.

Definition toFixed1 (x : Q) : string :=
  ((if Qle_bool 0 x then "" else "-") ++ fixed1 (tenths x))%string.

(** Lines 128-133: the two percentages as shown, [null] without a result. *)
Definition probabilities (rnd : Q -> Q) (result : option Result.t)
    : option (string * string) :=
  match result with
  | None => None
  | Some r =>
      Some (toFixed1 (rnd (Result.probabilityCT r * 100)%Q),
            toFixed1 (rnd (Result.probabilityMRI r * 100)%Q))
  end.

(** A string operand of [&&]: the empty string is falsy. *)
Definition truthyString (s : option string) : option string :=
  match s with
  | Some s => if String.eqb s "" then None else Some s
  | None => None
  end.

(** The properties [JSON.stringify] writes: those whose value is not
    [undefined]. *)
Definition written (meta : gmap string JsValue) : gmap string JsValue :=
  omap (fun v => match v with JsUndefined => None | _ => Some v end) meta.

(** What the result box shows (lines 151-165). *)
Module ResultView.
Record t : Type := {
  prediction : Label;
  percentages : option (string * string);
  modalityLine : option string;
  metadata : option (gmap string JsValue);
  dimmed : bool
}.
End ResultView.

(** What the component shows (lines 135-173), the preview canvas apart. *)
Module View.
Record t : Type := {
  buttonDisabled : bool;
  buttonLabel : string;
  errorBox : option string;
  resultBox : option ResultView.t
}.
End View.

(** Lines 135-173: the rendering of the component state. *)
Definition render (rnd : Q -> Q) (ui : Ui.t) : View.t :=
  {| View.buttonDisabled := Ui.loading ui;
     View.buttonLabel :=
       if Ui.loading ui then "Analyzing…"%string else "Choose Image or DICOM"%string;
     View.errorBox := truthyString (Ui.error ui);
     View.resultBox :=
       match Ui.result ui with
       | None => None
       | Some r =>
           Some {| ResultView.prediction := Result.label r;
                   ResultView.percentages := probabilities rnd (Ui.result ui);
                   ResultView.modalityLine := truthyString (Result.modality r);
                   ResultView.metadata := option_map written (Result.meta r);
                   ResultView.dimmed := Ui.loading ui |}
       end |}.

(** The preview canvas erased and sized, as [drawAndRead] leaves it before it
    draws. *)
Definition erased (width height : Z) : Canvas.t :=
  {| Canvas.width := canvasSide 300 width; Canvas.height := canvasSide 150 height;
     Canvas.bitmap := blank (canvasSide 300 width) (canvasSide 150 height) |}.

(** The preview canvas after [drawAndRead]: erased, sized, and painted by
    [drawImage]. *)
Definition painted (P : Platform) (source : ImageSource) (width height : Z)
    : Canvas.t :=
  {| Canvas.width := canvasSide 300 width; Canvas.height := canvasSide 150 height;
     Canvas.bitmap := drawImage P (erased width height) source width height |}.

(** The temporary canvas of lines 55-60, holding the normalizer's pixels. *)
Definition tempCanvas (info : DicomInfo.t) (imageData : ImageData.t) : Canvas.t :=
  putImageData (sizedTemp info) imageData.

(** The sides of the analyzed raster on the DICOM branch (lines 41-44). *)
Definition dicomWidth (P : Platform) (info : DicomInfo.t) : Z :=
  fitDim (round64 P) (number (DicomInfo.columns info))
         (fitScale (round64 P) 512 (number (DicomInfo.columns info))
                   (number (DicomInfo.rows info))).

Definition dicomHeight (P : Platform) (info : DicomInfo.t) : Z :=
  fitDim (round64 P) (number (DicomInfo.rows info))
         (fitScale (round64 P) 512 (number (DicomInfo.columns info))
                   (number (DicomInfo.rows info))).

(** Where the exceptions that reach the [catch] of line 115 come from: the
    read of the file, the five library calls, the three [throw] statements
    of [handleFile], [new ImageData], and [putImageData] called on a missing
    context. *)
Definition thrownBy (L : Lib) (P : Platform) (file : File.t) (e : Thrown) : Prop :=
  File.unreadable file = Some e
  \/ isLikelyDicom L (File.bytes file) = inl e
  \/ parseDicom L (File.bytes file) = inl e
  \/ (exists info, normalizeCall L info = inl e)
  \/ (exists analyzed, computeFeaturesFromImageData L analyzed = inl e)
  \/ (exists features, classifyFeatures L features = inl e)
  \/ e = JsError "Canvas context unavailable"
  \/ e = JsError "Failed to parse DICOM"
  \/ e = JsError "Missing pixel data"
  \/ e = DOMException "InvalidStateError" (exceptionText P "InvalidStateError")
  \/ e = DOMException "IndexSizeError" (exceptionText P "IndexSizeError")
  \/ e = TypeError (exceptionText P "TypeError").

(** Stand-ins to run the rest of the component on. *)
Module Scenario.

(** The example library with a feature extractor that throws. *)
Definition throwingLib : Lib :=
  {| Features := Features Example.lib;
     isLikelyDicom := isLikelyDicom Example.lib;
     parseDicom := parseDicom Example.lib;
     normalizeDicomToGrayscale8 := normalizeDicomToGrayscale8 Example.lib;
     computeFeaturesFromImageData := fun _ => inl (JsError "Empty raster");
     classifyFeatures := classifyFeatures Example.lib |}.

(** The example study in a file whose content cannot be read. *)
Definition lockedFile : File.t :=
  {| File.bytes := File.bytes Example.dicomFile; File.type := "";
     File.unreadable :=
       Some (DOMException "NotReadableError" "The file could not be read") |}.

(** A decoded image of 1024 by 600 pixels. *)
Definition wide : Image.t :=
  {| Image.width := 1024; Image.height := 600; Image.pixels := [] |}.

(** A result whose probabilities are 0.0005 and 0.9995. *)
Definition lopsided : Result.t :=
  {| Result.label := MRI;
     Result.probabilityCT := 1 # 2000;
     Result.probabilityMRI := 1999 # 2000;
     Result.modality := None;
     Result.meta := None |}.

End Scenario.

(** Literals [0] and [1] read back from [Z]. *)
Ltac unit_literals :=
  change (inject_Z 0) with 0%Q in *; change (inject_Z 1) with 1%Q in *.

(* ===================================================================== *)
(** * Facts about rounding and resizing *)
(* ===================================================================== *)

Section ResizeFacts.
Import Float64.
Variable rnd : Q -> Q.
Hypothesis F : Float64Rounding rnd.


Lemma rnd_0 : (rnd 0 == 0)%Q.
Proof. apply (rnd_int rnd F 0). simpl. lia. Qed.

Lemma rnd_1 : (rnd 1 == 1)%Q.
Proof. apply (rnd_int rnd F 1). simpl. lia. Qed.

Lemma rnd_nonneg (x : Q) : (0 <= x)%Q -> (0 <= rnd x)%Q.
Proof. intros H. rewrite <- rnd_0. now apply (rnd_mono rnd F). Qed.

Lemma rnd_upper (x : Q) :
  (0 <= x)%Q -> (x <= big)%Q -> (rnd x <= x + u * x + eta)%Q.
Proof.
  intros H0 Hb.
  assert (A : (Qabs x == x)%Q) by now apply Qabs_pos.
  pose proof (rnd_err rnd F x) as E. rewrite A in E. specialize (E Hb).
  apply Qabs_Qle_condition in E. lra.
Qed.


Lemma fitScale_nonneg (maxDim w h : Z) :
  0 <= maxDim -> 0 <= w -> 0 <= h -> (0 <= fitScale rnd maxDim w h)%Q.
Proof.
  intros HD Hw Hh. unfold fitScale.
  destruct (Z.eqb_spec (Z.max w h) 0) as [E | NE]; [lra |].
  apply Q.min_glb; [lra |]. apply rnd_nonneg.
  assert (Hm : 0 < Z.max w h) by lia.
  apply Qle_shift_div_l.
  - rewrite (Zlt_Qlt 0 (Z.max w h)) in Hm. exact Hm.
  - rewrite (Zle_Qle 0 maxDim) in HD. unit_literals. lra.
Qed.


Lemma fitDim_ge_1 (d : Z) (s : Q) : 1 <= fitDim rnd d s.
Proof. unfold fitDim. lia. Qed.



(** The rounded scale of an image that does not fit. *)
Lemma fitScale_too_big (maxDim w h : Z) :
  1 <= maxDim <= 2 ^ 50 -> maxDim < Z.max w h <= 2 ^ 53 ->
  let s := fitScale rnd maxDim w h in
  (0 <= s <= 1)%Q /\
  (inject_Z (Z.max w h) * s <= inject_Z maxDim + u * inject_Z maxDim
                               + inject_Z (2 ^ 53) * eta)%Q.
Proof.
  intros [HD0 HD1] [Hm0 Hm1] s. subst s.
  set (m := Z.max w h) in *.
  assert (Hs : fitScale rnd maxDim w h = Qmin 1 (rnd (inject_Z maxDim / inject_Z m))).
  { unfold fitScale. fold m. destruct (Z.eqb_spec m 0); [lia | reflexivity]. }
  rewrite Hs. clear Hs.
  set (q := (inject_Z maxDim / inject_Z m)%Q).
  assert (Qm : (0 < inject_Z m)%Q) by (apply (Qlt_le_trans _ (inject_Z 1)); [reflexivity | rewrite <- Zle_Qle; lia]).
  assert (QD : (1 <= inject_Z maxDim)%Q) by (change 1%Q with (inject_Z 1); rewrite <- Zle_Qle; lia).
  assert (QDm : (inject_Z maxDim <= inject_Z m)%Q) by (rewrite <- Zle_Qle; lia).
  assert (Qm53 : (inject_Z m <= inject_Z (2 ^ 53))%Q) by (rewrite <- Zle_Qle; lia).
  assert (Hmq : (inject_Z m * q == inject_Z maxDim)%Q).
  { unfold q. field. lra. }
  assert (Hq0 : (0 <= q)%Q).
  { unfold q. apply Qle_shift_div_l; lra. }
  assert (Hq1 : (q <= 1)%Q).
  { unfold q. apply Qle_shift_div_r; lra. }
  assert (Hr1 : (rnd q <= 1)%Q).
  { rewrite <- rnd_1. now apply (rnd_mono rnd F). }
  assert (Hr0 : (0 <= rnd q)%Q) by now apply rnd_nonneg.
  assert (Hqb : (q <= big)%Q).
  { unfold big. apply Qle_trans with 1%Q; [exact Hq1 |].
    change 1%Q with (inject_Z 1). rewrite <- Zle_Qle. apply (Z.pow_le_mono_r 2 0 1023); lia. }
  pose proof (rnd_upper q Hq0 Hqb) as Hup.
  assert (Hmin : (Qmin 1 (rnd q) == rnd q)%Q) by now apply Q.min_r.
  rewrite Hmin. split; [split; assumption |].
  assert (Hprod : (inject_Z m * rnd q <= inject_Z m * (q + u * q + eta))%Q).
  { apply Qmult_le_l; assumption. }
  assert (Hme : (inject_Z m * eta <= inject_Z (2 ^ 53) * eta)%Q).
  { apply Qmult_le_compat_r; [assumption | unfold eta, Qle; simpl; lia]. }
  assert (Hexp : (inject_Z m * (q + u * q + eta)
                  == inject_Z maxDim + u * inject_Z maxDim + inject_Z m * eta)%Q).
  { rewrite <- Hmq. ring. }
  rewrite Hexp in Hprod. lra.
Qed.

Lemma u_bounds : (0 <= u <= 1 # 8)%Q.
Proof. unfold u, Qle; simpl; lia. Qed.

Lemma eta_bounds :
  (0 <= eta <= 1 # 16)%Q /\ (0 <= inject_Z (2 ^ 53) * eta <= 1 # 16)%Q.
Proof. unfold eta, Qle; simpl; lia. Qed.

Lemma u_times_dim (maxDim : Z) :
  0 <= maxDim <= 2 ^ 50 -> (0 <= u * inject_Z maxDim <= 1 # 8)%Q.
Proof.
  intros [H0 H1].
  rewrite (Zle_Qle 0 maxDim) in H0. rewrite (Zle_Qle maxDim (2 ^ 50)) in H1.
  unit_literals.
  assert (E : (u * inject_Z (2 ^ 50) == 1 # 8)%Q) by reflexivity.
  pose proof u_bounds as [U0 U1].
  split; [nra |].
  rewrite <- E. apply Qmult_le_l_nonneg || (apply Qmult_le_compat_nonneg; lra) || nra.
Qed.


End ResizeFacts.

(* ===================================================================== *)
(** * Facts about the canvas operations *)
(* ===================================================================== *)

(** An [ImageData] that was constructed holds the buffer it was given and
    the two sides as [unsigned long] values; the buffer has four bytes for
    each of its [sw * sh] pixels. *)
Lemma newImageData_inr (text : string -> string) (data : list Z) (sw sh : Z)
    (img : ImageData.t) :
  newImageData text data sw sh = inr img ->
  img = {| ImageData.data := data; ImageData.width := toUint32 sw;
           ImageData.height := toUint32 sh |}
  /\ Z.of_nat (List.length data) = 4 * (toUint32 sw * toUint32 sh)
  /\ Z.of_nat (List.length data) <> 0.
Proof.
  unfold newImageData. cbv zeta.
  set (n := Z.of_nat (List.length data)).
  set (w := toUint32 sw). set (h := toUint32 sh).
  destruct (Z.eqb_spec n 0) as [N0 | N0]; simpl; [discriminate |].
  destruct (Z.eqb_spec (n mod 4) 0) as [M4 | M4]; simpl; [| discriminate].
  destruct (Z.eqb_spec w 0) as [S0 | S0]; simpl; [discriminate |].
  destruct (Z.eqb_spec ((n / 4) mod w) 0) as [Msw | Msw]; simpl; [| discriminate].
  destruct (Z.eqb_spec (n / 4 / w) h) as [Hsh | Hsh]; simpl; [| discriminate].
  intros E. injection E as <-. repeat split; [| exact N0].
  rewrite <- Hsh.
  rewrite <- (Z_div_exact_full_2 (n / 4) w S0 Msw).
  apply (Z_div_exact_full_2 n 4); [lia | exact M4].
Qed.

Lemma getImageData_inr (text : string -> string) (c : Canvas.t) (sw sh : Z)
    (img : ImageData.t) :
  getImageData text c sw sh = inr img ->
  ImageData.width img = sw /\ ImageData.height img = sh.
Proof.
  unfold getImageData. destruct ((sw =? 0) || (sh =? 0)); [discriminate |].
  intros E. injection E as <-. split; reflexivity.
Qed.

(** Sizing the canvas erases whatever it showed. *)
Lemma resize_erases (w h : Z) (c : Canvas.t) :
  setHeight h (setWidth w c)
  = {| Canvas.width := canvasSide 300 w; Canvas.height := canvasSide 150 h;
       Canvas.bitmap := blank (canvasSide 300 w) (canvasSide 150 h) |}.
Proof. reflexivity. Qed.

(* ===================================================================== *)
(** * Facts about [handleFile] *)
(* ===================================================================== *)

Section PipelineFacts.
Variable L : Lib.
Variable P : Platform.

(** What [drawAndRead] leaves and returns does not depend on what the
    canvas showed before. *)
Lemma drawAndRead_fresh (source : ImageSource) (width height : Z) (c1 c2 : Canvas.t) :
  drawAndRead P source width height c1 = drawAndRead P source width height c2.
Proof. reflexivity. Qed.

Lemma drawAndRead_inr (source : ImageSource) (width height : Z)
    (c c' : Canvas.t) (analyzed : ImageData.t) :
  drawAndRead P source width height c = (c', inr analyzed) ->
  ImageData.width analyzed = width /\ ImageData.height analyzed = height.
Proof.
  unfold drawAndRead, bind, update, readCanvas, call; simpl.
  intros E. injection E as _ E. now apply getImageData_inr in E.
Qed.

(** [analyzeParsed] either stops at the normalizer, at the [ImageData]
    constructor or at the missing context of the temporary canvas, leaving
    the preview canvas alone, or it goes on to [drawAndRead]. *)
Lemma analyzeParsed_unfold (info : DicomInfo.t) (c : Canvas.t) :
  analyzeParsed L P info c =
  match renderDicom L P info with
  | inl e => (c, inl e)
  | inr imageData =>
      let columns := number (DicomInfo.columns info) in
      let rows := number (DicomInfo.rows info) in
      let scale := fitScale (round64 P) 512 columns rows in
      drawAndRead P
        (FromCanvas (putImageData (sizedTemp info) imageData))
        (fitDim (round64 P) columns scale) (fitDim (round64 P) rows scale) c
  end.
Proof.
  unfold analyzeParsed, bind, call. destruct (renderDicom L P info); reflexivity.
Qed.

Lemma analyzeParsed_inr (info : DicomInfo.t) (c c' : Canvas.t) (analyzed : ImageData.t) :
  analyzeParsed L P info c = (c', inr analyzed) ->
  let columns := number (DicomInfo.columns info) in
  let rows := number (DicomInfo.rows info) in
  let scale := fitScale (round64 P) 512 columns rows in
  (exists imageData, renderDicom L P info = inr imageData)
  /\ ImageData.width analyzed = fitDim (round64 P) columns scale
  /\ ImageData.height analyzed = fitDim (round64 P) rows scale.
Proof.
  rewrite analyzeParsed_unfold.
  destruct (renderDicom L P info) as [e | imageData]; [discriminate |].
  intros E. apply drawAndRead_inr in E. cbv zeta. split; [eauto | exact E].
Qed.

Lemma analyzeImage_inr (img : Image.t) (c c' : Canvas.t) (analyzed : ImageData.t) :
  analyzeImage P img c = (c', inr analyzed) ->
  let scale := fitScale (round64 P) 768 (Image.width img) (Image.height img) in
  ImageData.width analyzed = fitDim (round64 P) (Image.width img) scale
  /\ ImageData.height analyzed = fitDim (round64 P) (Image.height img) scale.
Proof. unfold analyzeImage. intros E. now apply drawAndRead_inr in E. Qed.

(** The record that passes the guards of lines 38-39 has non-zero rows and
    columns and carries pixel data. *)
Lemma checkParsed_inr (parsed : option DicomInfo.t) (info : DicomInfo.t) :
  checkParsed parsed = inr info ->
  parsed = Some info
  /\ number (DicomInfo.rows info) <> 0
  /\ number (DicomInfo.columns info) <> 0
  /\ (exists r, DicomInfo.rows info = Some r)
  /\ (exists k, DicomInfo.columns info = Some k)
  /\ (exists px, DicomInfo.pixelData info = Some px).
Proof.
  unfold checkParsed. destruct parsed as [i |]; [| discriminate].
  destruct (DicomInfo.rows i) as [r |] eqn:Er; simpl; [| discriminate].
  destruct (Z.eqb_spec r 0); simpl; [discriminate |].
  destruct (DicomInfo.columns i) as [k |] eqn:Ek; simpl; [| discriminate].
  destruct (Z.eqb_spec k 0); simpl; [discriminate |].
  destruct (DicomInfo.pixelData i) as [px |] eqn:Ep; simpl; [| discriminate].
  intros E. injection E as <-. rewrite Er, Ek, Ep. simpl. eauto 10.
Qed.

(** A run of the DICOM branch that returns went through every stage. *)
Lemma dicomBranch_inr (arrayBuffer : list byte) (c c' : Canvas.t) (r : Result.t) :
  dicomBranch L P arrayBuffer c = (c', inr r) ->
  exists info classification,
    parseDicom L arrayBuffer = inr (Some info)
    /\ checkParsed (Some info) = inr info
    /\ classifyDicom L P info c = (c', inr classification)
    /\ r = dicomResult info classification.
Proof.
  unfold dicomBranch, bind, call, ret.
  destruct (parseDicom L arrayBuffer) as [e | parsed]; [discriminate |].
  destruct (checkParsed parsed) as [e | info] eqn:Ec; [discriminate |].
  destruct (classifyDicom L P info c) as [k [e | classification]] eqn:Ek; [discriminate |].
  intros E. injection E as <- <-.
  destruct (checkParsed_inr _ _ Ec) as [-> _].
  exists info, classification. auto.
Qed.

Lemma classifyDicom_inr (info : DicomInfo.t) (c c' : Canvas.t)
    (classification : Classification.t) :
  classifyDicom L P info c = (c', inr classification) ->
  exists analyzed,
    analyzeParsed L P info c = (c', inr analyzed)
    /\ classifyAnalyzed L analyzed = inr classification.
Proof.
  unfold classifyDicom, bind, call.
  destruct (analyzeParsed L P info c) as [k [e | analyzed]]; [discriminate |].
  intros E. injection E as <- E. eauto.
Qed.

(** A result on the DICOM branch comes from a run of [dicomBranch]. *)
Lemma handleFile_dicom_result (file : File.t) (w : World.t) (r : Result.t) :
  isLikelyDicom L (File.bytes file) = inr true ->
  Ui.result (World.ui (handleFile L P file w)) = Some r ->
  exists c', dicomBranch L P (File.bytes file) (World.canvas w) = (c', inr r).
Proof.
  intros D. unfold handleFile, run, File.arrayBuffer.
  destruct (File.unreadable file); [discriminate |]. rewrite D.
  destruct (hasContext2d P); simpl; [| discriminate].
  destruct (dicomBranch L P (File.bytes file) (World.canvas w)) as [k [e | r']];
    simpl; [discriminate |].
  intros E. injection E as ->. eauto.
Qed.

Lemma analyzeParsed_blind (info : DicomInfo.t) : canvasBlind (analyzeParsed L P info).
Proof.
  destruct (renderDicom L P info) as [e | imageData] eqn:E.
  - left. exists (inl e). intros c. rewrite analyzeParsed_unfold, E. reflexivity.
  - right.
    exists (fst (analyzeParsed L P info createCanvas)),
           (snd (analyzeParsed L P info createCanvas)).
    intros c. rewrite <- surjective_pairing.
    rewrite !analyzeParsed_unfold, E. reflexivity.
Qed.

Lemma bind_blind {A B : Type} (m : Eff A) (k : A -> Res B) :
  canvasBlind m -> canvasBlind (bind m (fun a => call (k a))).
Proof.
  unfold bind, call.
  intros [[a H] | [c0 [a H]]].
  - left. exists (match a with inr x => k x | inl e => inl e end).
    intros c. rewrite H. destruct a; reflexivity.
  - right. exists c0, (match a with inr x => k x | inl e => inl e end).
    intros c. rewrite H. destruct a; reflexivity.
Qed.

Lemma classifyDicom_blind (info : DicomInfo.t) : canvasBlind (classifyDicom L P info).
Proof. apply bind_blind, analyzeParsed_blind. Qed.

Lemma dicomBranch_blind (arrayBuffer : list byte) :
  canvasBlind (dicomBranch L P arrayBuffer).
Proof.
  unfold dicomBranch, bind at 1 2, call.
  destruct (parseDicom L arrayBuffer) as [e | parsed];
    [left; exists (inl e); reflexivity |].
  destruct (checkParsed parsed) as [e | info];
    [left; exists (inl e); reflexivity |].
  apply (bind_blind (classifyDicom L P info) (fun cls => inr (dicomResult info cls))).
  apply classifyDicom_blind.
Qed.

Lemma onload_blind (img : Image.t) : canvasBlind (onload L P img).
Proof.
  right.
  exists (fst (onload L P img createCanvas)), (snd (onload L P img createCanvas)).
  intros c. rewrite <- surjective_pairing. reflexivity.
Qed.

Lemma run_blind (file : File.t) : canvasBlind (run L P file).
Proof.
  unfold run, File.arrayBuffer.
  destruct (File.unreadable file); [left; eexists; reflexivity |].
  destruct (hasContext2d P); simpl; [| left; eexists; reflexivity].
  destruct (isLikelyDicom L (File.bytes file)) as [e | [|]];
    [left; eexists; reflexivity | |].
  - destruct (dicomBranch_blind (File.bytes file)) as [[a H] | [k [a H]]].
    + left. exists (match a with inr r => SetResult r | inl e => SetError (catchMessage e) end).
      intros c. rewrite H. destruct a; reflexivity.
    + right. exists k, (match a with inr r => SetResult r | inl e => SetError (catchMessage e) end).
      intros c. rewrite H. destruct a; reflexivity.
  - destruct (decodeImage P (File.bytes file) (blobType file)) as [img |];
      [| left; eexists; reflexivity].
    destruct (onload_blind img) as [[a H] | [k [a H]]].
    + left. exists (match a with inr r => SetResult r | inl _ => NoUpdate end).
      intros c. rewrite H. destruct a; reflexivity.
    + right. exists k, (match a with inr r => SetResult r | inl _ => NoUpdate end).
      intros c. rewrite H. destruct a; reflexivity.
Qed.

(** Records that agree on what [handleFile] reads pass the same guards, get
    the same classification and the same result. *)
Lemma checkParsed_same (f : DicomInfo.t -> DicomInfo.t) (parsed : option DicomInfo.t) :
  (forall info, sameReadFields (f info) info) ->
  checkParsed (option_map f parsed)
  = match checkParsed parsed with
    | inl e => inl e
    | inr info => inr (f info)
    end.
Proof.
  intros Same. destruct parsed as [info |]; [| reflexivity].
  destruct (Same info) as (Er & Ek & Ep & _).
  unfold checkParsed. simpl. rewrite Er, Ek, Ep.
  destruct (negb (truthyNumber (DicomInfo.rows info))
            || negb (truthyNumber (DicomInfo.columns info))
            || negb (truthyObject (DicomInfo.pixelData info))); reflexivity.
Qed.

Lemma classifyDicom_same (f : DicomInfo.t -> DicomInfo.t) (info : DicomInfo.t) :
  sameReadFields (f info) info ->
  classifyDicom (mapParsed f L) P (f info) = classifyDicom L P info.
Proof.
  intros (Er & Ek & Ep & Es & Ei & Ec & Ew & _).
  unfold classifyDicom, classifyAnalyzed, analyzeParsed, renderDicom, normalizeCall,
    normalizeOptions, sizedTemp.
  cbn [mapParsed normalizeDicomToGrayscale8 computeFeaturesFromImageData classifyFeatures].
  rewrite Er, Ek, Ep, Es, Ei, Ec, Ew. reflexivity.
Qed.

Lemma dicomResult_same (f : DicomInfo.t -> DicomInfo.t) (info : DicomInfo.t)
    (classification : Classification.t) :
  sameReadFields (f info) info ->
  dicomResult (f info) classification = dicomResult info classification.
Proof.
  intros (Er & Ek & _ & Es & Ei & Ec & Ew & Em & Et & En).
  unfold dicomResult, metaOf. rewrite Er, Ek, Es, Ei, Ec, Ew, Em, Et, En. reflexivity.
Qed.

Lemma handleFile_same (f : DicomInfo.t -> DicomInfo.t) (file : File.t) (w : World.t) :
  (forall info, sameReadFields (f info) info) ->
  handleFile (mapParsed f L) P file w = handleFile L P file w.
Proof.
  intros Same. unfold handleFile, run, File.arrayBuffer.
  change (isLikelyDicom (mapParsed f L)) with (isLikelyDicom L).
  destruct (File.unreadable file); [reflexivity |].
  destruct (hasContext2d P); simpl; [| reflexivity].
  destruct (isLikelyDicom L (File.bytes file)) as [e | [|]]; [reflexivity | | reflexivity].
  assert (E : dicomBranch (mapParsed f L) P (File.bytes file) (World.canvas w)
              = dicomBranch L P (File.bytes file) (World.canvas w)).
  { unfold dicomBranch, bind at 1 2 4 5, call at 1 2 3 4.
    cbn [mapParsed parseDicom].
    destruct (parseDicom L (File.bytes file)) as [e | parsed]; [reflexivity |].
    rewrite (checkParsed_same f parsed Same).
    destruct (checkParsed parsed) as [e | info]; [reflexivity |].
    unfold bind, ret.
    rewrite (classifyDicom_same f info (Same info)).
    destruct (classifyDicom L P info (World.canvas w)) as [k [e | cls]]; [reflexivity |].
    now rewrite (dicomResult_same f info cls (Same info)). }
  rewrite E. reflexivity.
Qed.

End PipelineFacts.

(* ===================================================================== *)
(** * The statements of the specification *)
(* ===================================================================== *)

(** Exact arithmetic satisfies the rounding model. *)
Lemma exact_rounding : Float64.Float64Rounding Float64.exact.
Proof.
  split; unfold Float64.exact.
  - intros x y H. exact H.
  - intros n _. reflexivity.
  - intros x _.
    assert (E : (x - x == 0)%Q) by ring.
    rewrite E. change (Qabs 0) with 0%Q.
    pose proof (Qabs_nonneg x) as A.
    assert (U : (0 <= Float64.u)%Q) by (unfold Float64.u, Qle; simpl; lia).
    assert (H : (0 <= Float64.eta)%Q) by (unfold Float64.eta, Qle; simpl; lia).
    nra.
Qed.



(** [toUint32] leaves an [unsigned long] value as it is. *)
Lemma toUint32_small (n : Z) : 0 <= n < 2 ^ 32 -> toUint32 n = n.
Proof. intros H. unfold toUint32. now apply Z.mod_small. Qed.

(** When lines 46-60 return, the normalizer returned a buffer, the
    constructor accepted it, and the temporary canvas had a context. *)
Lemma renderDicom_inr (L : Lib) (P : Platform) (info : DicomInfo.t)
    (imageData : ImageData.t) :
  renderDicom L P info = inr imageData ->
  exists rgba : list Z,
    normalizeCall L info = inr rgba
    /\ newImageData (exceptionText P) rgba (number (DicomInfo.columns info))
                    (number (DicomInfo.rows info)) = inr imageData
    /\ hasTempContext2d P (sizedTemp info) = true.
Proof.
  unfold renderDicom.
  destruct (normalizeCall L info) as [e | rgba]; [discriminate |].
  destruct (newImageData _ rgba _ _) as [e | img] eqn:Hi; [discriminate |].
  destruct (hasTempContext2d P (sizedTemp info)); [| discriminate].
  intros E. injection E as <-. exists rgba. repeat split. exact Hi.
Qed.

(** The temporary canvas that [drawImage] is given is never empty (an empty
    source canvas would make [drawImage] throw): a side of zero is refused by
    [new ImageData] before. *)
Lemma temp_canvas_not_empty (L : Lib) (P : Platform) (info : DicomInfo.t)
    (imageData : ImageData.t) :
  renderDicom L P info = inr imageData ->
  Canvas.width (putImageData (sizedTemp info) imageData) <> 0
  /\ Canvas.height (putImageData (sizedTemp info) imageData) <> 0.
Proof.
  intros Hr. destruct (renderDicom_inr L P info imageData Hr) as (rgba & _ & Hi & _).
  apply newImageData_inr in Hi. destruct Hi as (_ & E4 & N0).
  cbn [putImageData sizedTemp setHeight setWidth Canvas.width Canvas.height].
  unfold canvasSide.
  split.
  - destruct (toUint32 (number (DicomInfo.columns info)) <=? 2147483647); [nia | lia].
  - destruct (toUint32 (number (DicomInfo.rows info)) <=? 2147483647); [nia | lia].
Qed.

(** C1, as it stands, fails on the code.  For the two-by-two study, a
    normalizer that returns the flat raster (four bytes, one per pixel) makes
    [new ImageData(rgba, 2, 2)] throw; and whatever the library does, a
    buffer of [columns * rows] bytes from the normalizer, for sides that are
    32-bit unsigned values, is never accepted at line 59. *)
Lemma flat_raster_is_rejected :
  normalizeCall Example.flatLib Example.info = inr [0; 85; 170; 255]
  /\ renderDicom Example.flatLib Example.platform Example.info
     = inl (DOMException "IndexSizeError" "IndexSizeError")
  /\ ~ (exists (L : Lib) (P : Platform) (info : DicomInfo.t) (raster : list Z),
           checkParsed (Some info) = inr info
           /\ 0 <= number (DicomInfo.columns info) < 2 ^ 32
           /\ 0 <= number (DicomInfo.rows info) < 2 ^ 32
           /\ normalizeCall L info = inr raster
           /\ Z.of_nat (List.length raster)
              = number (DicomInfo.columns info) * number (DicomInfo.rows info)
           /\ isOk (renderDicom L P info) = true).
Proof.
  split; [reflexivity | split; [reflexivity |]].
  intros (L & P & info & raster & Hc & Bk & Br & Hn & Hlen & Hok).
  destruct (renderDicom L P info) as [e | img] eqn:E; [discriminate |].
  apply renderDicom_inr in E. destruct E as (rgba & Hn' & E & _).
  rewrite Hn in Hn'. injection Hn' as <-.
  apply newImageData_inr in E. destruct E as (_ & E4 & _).
  rewrite (toUint32_small _ Bk), (toUint32_small _ Br) in E4.
  destruct (checkParsed_inr _ _ Hc) as (_ & Nr & Nk & _).
  nia.
Qed.

(** C1, amended.  Whenever the DICOM branch produces a result, the buffer
    returned by the normalizer was given to [new ImageData] unchanged, with
    the record's columns and rows as width and height.  The constructor
    takes the two sides as [unsigned long] values, that is modulo [2^32];
    the buffer holds four bytes per pixel of the image so constructed, and
    not one.  For columns and rows below [2^32] the image is [columns] wide
    and [rows] high and the buffer has [4 * columns * rows] bytes, not
    [columns * rows].  [handleFile] has no step that expands gray samples to
    RGBA. *)
Theorem normalizer_returns_rgba (L : Lib) (P : Platform) (file : File.t)
    (w : World.t) (r : Result.t) :
  isLikelyDicom L (File.bytes file) = inr true ->
  Ui.result (World.ui (handleFile L P file w)) = Some r ->
  exists (info : DicomInfo.t) (rgba : list Z) (imageData : ImageData.t),
    parseDicom L (File.bytes file) = inr (Some info)
    /\ normalizeCall L info = inr rgba
    /\ renderDicom L P info = inr imageData
    /\ ImageData.data imageData = rgba
    /\ ImageData.width imageData = number (DicomInfo.columns info) mod 2 ^ 32
    /\ ImageData.height imageData = number (DicomInfo.rows info) mod 2 ^ 32
    /\ Z.of_nat (List.length rgba)
       = 4 * (ImageData.width imageData * ImageData.height imageData)
    /\ Z.of_nat (List.length rgba)
       <> ImageData.width imageData * ImageData.height imageData
    /\ (0 <= number (DicomInfo.columns info) < 2 ^ 32 ->
        0 <= number (DicomInfo.rows info) < 2 ^ 32 ->
        ImageData.width imageData = number (DicomInfo.columns info)
        /\ ImageData.height imageData = number (DicomInfo.rows info)
        /\ Z.of_nat (List.length rgba)
           = 4 * (number (DicomInfo.columns info) * number (DicomInfo.rows info))
        /\ Z.of_nat (List.length rgba)
           <> number (DicomInfo.columns info) * number (DicomInfo.rows info)).
Proof.
  intros D R.
  destruct (handleFile_dicom_result L P file w r D R) as [c' B].
  destruct (dicomBranch_inr L P _ _ _ _ B) as (info & cls & Hp & Hc & Hd & _).
  destruct (classifyDicom_inr L P _ _ _ _ Hd) as (analyzed & Ha & _).
  destruct (analyzeParsed_inr L P _ _ _ _ Ha) as ([imageData Hr] & _).
  destruct (renderDicom_inr L P info imageData Hr) as (rgba & Hn & Hi & _).
  apply newImageData_inr in Hi. destruct Hi as (-> & E4 & N0).
  exists info, rgba. eexists.
  split; [exact Hp |]. split; [exact Hn |]. split; [exact Hr |].
  cbn [ImageData.data ImageData.width ImageData.height].
  split; [reflexivity |]. split; [reflexivity |]. split; [reflexivity |].
  split; [exact E4 |]. split; [lia |].
  intros Bk Br.
  rewrite (toUint32_small _ Bk), (toUint32_small _ Br) in *.
  repeat split; [exact E4 | lia].
Qed.

(** The example library returns RGBA, and its run produces a result: the
    image is two by two and the buffer has sixteen bytes.  So does the run
    on the study declared [2^32 + 2] columns wide: its image is two wide. *)
Lemma normalizer_returns_rgba_witness :
  (exists (r : Result.t) (imageData : ImageData.t),
      Ui.result (World.ui (handleFile (Example.libWith (inr (Some Example.infoWide)))
                             Example.platform Example.dicomFile Example.world))
      = Some r
      /\ renderDicom (Example.libWith (inr (Some Example.infoWide))) Example.platform
                     Example.infoWide = inr imageData
      /\ number (DicomInfo.columns Example.infoWide) = 2 ^ 32 + 2
      /\ ImageData.width imageData = 2
      /\ ImageData.height imageData = 2
      /\ Z.of_nat (List.length (ImageData.data imageData)) = 16)
  /\
  exists (info : DicomInfo.t) (rgba : list Z) (imageData : ImageData.t),
    parseDicom Example.lib (File.bytes Example.dicomFile) = inr (Some info)
    /\ normalizeCall Example.lib info = inr rgba
    /\ renderDicom Example.lib Example.platform info = inr imageData
    /\ ImageData.data imageData = rgba
    /\ ImageData.width imageData = number (DicomInfo.columns info) mod 2 ^ 32
    /\ ImageData.height imageData = number (DicomInfo.rows info) mod 2 ^ 32
    /\ Z.of_nat (List.length rgba)
       = 4 * (ImageData.width imageData * ImageData.height imageData)
    /\ Z.of_nat (List.length rgba)
       <> ImageData.width imageData * ImageData.height imageData
    /\ (0 <= number (DicomInfo.columns info) < 2 ^ 32 ->
        0 <= number (DicomInfo.rows info) < 2 ^ 32 ->
        ImageData.width imageData = number (DicomInfo.columns info)
        /\ ImageData.height imageData = number (DicomInfo.rows info)
        /\ Z.of_nat (List.length rgba)
           = 4 * (number (DicomInfo.columns info) * number (DicomInfo.rows info))
        /\ Z.of_nat (List.length rgba)
           <> number (DicomInfo.columns info) * number (DicomInfo.rows info)).
Proof.
  split; [eexists _, _; repeat split; vm_compute; reflexivity |].
  eapply (normalizer_returns_rgba Example.lib Example.platform Example.dicomFile
            Example.world).
  - reflexivity.
  - vm_compute. reflexivity.
Defined.


(** A record the guards of lines 38-39 refuse: [handleFile] reports the
    guard's message, sets no result and leaves the canvas alone. *)
Lemma handleFile_refused (L : Lib) (P : Platform) (file : File.t) (w : World.t)
    (parsed : option DicomInfo.t) (message : string) :
  File.unreadable file = None ->
  hasContext2d P = true ->
  isLikelyDicom L (File.bytes file) = inr true ->
  parseDicom L (File.bytes file) = inr parsed ->
  checkParsed parsed = inl (JsError message) ->
  message <> ""%string ->
  handleFile L P file w
  = {| World.ui := {| Ui.result := None; Ui.error := Some message;
                      Ui.loading := false |};
       World.canvas := World.canvas w |}.
Proof.
  intros Hread Hctx D Hp Hc Ne.
  unfold handleFile, run, File.arrayBuffer. rewrite Hread, Hctx, D. simpl.
  unfold dicomBranch, bind, call. rewrite Hp, Hc. simpl.
  unfold catchMessage. simpl.
  destruct (String.eqb_spec message ""); [contradiction | reflexivity].
Qed.

(** A record the guards let through: what [handleFile] leaves is what the
    later stages give. *)
Lemma handleFile_passed (L : Lib) (P : Platform) (file : File.t) (w : World.t)
    (info : DicomInfo.t) :
  File.unreadable file = None ->
  hasContext2d P = true ->
  isLikelyDicom L (File.bytes file) = inr true ->
  parseDicom L (File.bytes file) = inr (Some info) ->
  checkParsed (Some info) = inr info ->
  handleFile L P file w
  = match classifyDicom L P info (World.canvas w) with
    | (c', inr classification) =>
        {| World.ui := {| Ui.result := Some (dicomResult info classification);
                          Ui.error := None; Ui.loading := false |};
           World.canvas := c' |}
    | (c', inl e) =>
        {| World.ui := {| Ui.result := None; Ui.error := Some (catchMessage e);
                          Ui.loading := false |};
           World.canvas := c' |}
    end.
Proof.
  intros Hread Hctx D Hp Hc.
  unfold handleFile, run, File.arrayBuffer. rewrite Hread, Hctx, D. simpl.
  unfold dicomBranch, bind at 1 2, call at 1 2. rewrite Hp, Hc.
  unfold bind, ret.
  destruct (classifyDicom L P info (World.canvas w)) as [c' [e | cls]]; reflexivity.
Qed.

(** C2, as it stands, fails on the code.  A record with [Rows = 0] (and its
    pixel data present) that reaches line 39 is refused there with the plain
    [Error('Missing pixel data')], the error a record without pixel data
    gets: no error of another kind tells zero dimensions apart, whichever
    library returned the record.  And a record whose pixel buffer is too
    small, even empty, is not refused at all at lines 38-39. *)
Lemma zero_rows_reports_missing_pixel_data :
  checkParsed (Some Example.infoNoRows) = inl (JsError "Missing pixel data")
  /\ errorName (JsError "Missing pixel data") = "Error"%string
  /\ (forall (L : Lib) (P : Platform) (file : File.t) (w : World.t),
         File.unreadable file = None ->
         hasContext2d P = true ->
         isLikelyDicom L (File.bytes file) = inr true ->
         parseDicom L (File.bytes file) = inr (Some Example.infoNoRows) ->
         Ui.error (World.ui (handleFile L P file w)) = Some "Missing pixel data"%string
         /\ Ui.result (World.ui (handleFile L P file w)) = None)
  /\ checkParsed (Some Example.infoNoPixels) = inr Example.infoNoPixels.
Proof.
  split; [reflexivity | split; [reflexivity | split; [| reflexivity]]].
  intros L P file w Hread Hctx D Hp.
  rewrite (handleFile_refused L P file w _ "Missing pixel data" Hread Hctx D Hp eq_refl);
    [split; reflexivity | discriminate].
Qed.

(** C2, amended.  On the DICOM branch, when [parseDicom] returns nothing
    [handleFile] fails with [Error('Failed to parse DICOM')]; when the record
    it returns lacks rows, columns or pixel data, or has zero rows or zero
    columns, [handleFile] fails with [Error('Missing pixel data')].  Either
    way no result is set and the canvas is not touched.  The size of the
    pixel buffer is not checked: a record with rows and columns that are not
    zero and with pixel data of whatever length passes the guards, its pixel
    data goes to the normalizer as it is, and what [handleFile] leaves is
    what the later stages give. *)
Theorem incomplete_record_is_refused (L : Lib) (P : Platform) (file : File.t)
    (w : World.t) (parsed : option DicomInfo.t) :
  File.unreadable file = None ->
  hasContext2d P = true ->
  isLikelyDicom L (File.bytes file) = inr true ->
  parseDicom L (File.bytes file) = inr parsed ->
  (parsed = None ->
   handleFile L P file w
   = {| World.ui := {| Ui.result := None;
                       Ui.error := Some "Failed to parse DICOM"%string;
                       Ui.loading := false |};
        World.canvas := World.canvas w |})
  /\ (forall info : DicomInfo.t,
         parsed = Some info ->
         DicomInfo.rows info = None \/ DicomInfo.rows info = Some 0
         \/ DicomInfo.columns info = None \/ DicomInfo.columns info = Some 0
         \/ DicomInfo.pixelData info = None ->
         handleFile L P file w
         = {| World.ui := {| Ui.result := None;
                             Ui.error := Some "Missing pixel data"%string;
                             Ui.loading := false |};
              World.canvas := World.canvas w |})
  /\ (forall (info : DicomInfo.t) (rows columns : Z) (pixelData : list Z),
         parsed = Some info ->
         DicomInfo.rows info = Some rows -> rows <> 0 ->
         DicomInfo.columns info = Some columns -> columns <> 0 ->
         DicomInfo.pixelData info = Some pixelData ->
         checkParsed parsed = inr info
         /\ normalizeCall L info
            = normalizeDicomToGrayscale8 L pixelData (normalizeOptions info)
         /\ handleFile L P file w
            = match classifyDicom L P info (World.canvas w) with
              | (c', inr classification) =>
                  {| World.ui := {| Ui.result := Some (dicomResult info classification);
                                    Ui.error := None; Ui.loading := false |};
                     World.canvas := c' |}
              | (c', inl e) =>
                  {| World.ui := {| Ui.result := None;
                                    Ui.error := Some (catchMessage e);
                                    Ui.loading := false |};
                     World.canvas := c' |}
              end).
Proof.
  intros Hread Hctx D Hp.
  split; [| split].
  - intros ->.
    apply (handleFile_refused L P file w None _ Hread Hctx D Hp);
      [reflexivity | discriminate].
  - intros info -> Bad.
    apply (handleFile_refused L P file w (Some info) _ Hread Hctx D Hp);
      [| discriminate].
    unfold checkParsed.
    destruct Bad as [E | [E | [E | [E | E]]]]; rewrite E; simpl;
      try reflexivity.
    + destruct (truthyNumber (DicomInfo.rows info)); reflexivity.
    + destruct (truthyNumber (DicomInfo.rows info)); reflexivity.
    + destruct (truthyNumber (DicomInfo.rows info)),
               (truthyNumber (DicomInfo.columns info)); reflexivity.
  - intros info rows columns pixelData -> Er Nr Ek Nk Ep.
    assert (Hc : checkParsed (Some info) = inr info).
    { unfold checkParsed. rewrite Er, Ek, Ep. simpl.
      destruct (Z.eqb_spec rows 0); [contradiction |].
      destruct (Z.eqb_spec columns 0); [contradiction |]. reflexivity. }
    split; [exact Hc | split].
    + unfold normalizeCall. rewrite Ep. reflexivity.
    + now apply handleFile_passed.
Qed.

(** The study with [Rows = 0] is refused with 'Missing pixel data'; the
    study with an empty pixel buffer passes the guards. *)
Lemma incomplete_record_is_refused_witness :
  handleFile (Example.libWith (inr (Some Example.infoNoRows))) Example.platform
             Example.dicomFile Example.world
  = {| World.ui := {| Ui.result := None;
                      Ui.error := Some "Missing pixel data"%string;
                      Ui.loading := false |};
       World.canvas := World.canvas Example.world |}
  /\ checkParsed (Some Example.infoNoPixels) = inr Example.infoNoPixels.
Proof.
  split.
  - apply (proj1 (proj2 (incomplete_record_is_refused
                    (Example.libWith (inr (Some Example.infoNoRows))) Example.platform
                    Example.dicomFile Example.world (Some Example.infoNoRows)
                    eq_refl eq_refl eq_refl eq_refl))
                 Example.infoNoRows eq_refl).
    right. left. reflexivity.
  - apply (proj2 (proj2 (incomplete_record_is_refused
                    (Example.libWith (inr (Some Example.infoNoPixels))) Example.platform
                    Example.dicomFile Example.world (Some Example.infoNoPixels)
                    eq_refl eq_refl eq_refl eq_refl))
                 Example.infoNoPixels 2 2 [] eq_refl eq_refl ltac:(lia) eq_refl
                 ltac:(lia) eq_refl).
Defined.


(** A raster with at least one byte is not its own complement. *)
Lemma not_self_complementary (raster : list Z) :
  raster <> [] -> ~ complementary raster raster.
Proof.
  intros N C. destruct raster as [| x rest]; [contradiction |].
  inversion C; subst. lia.
Qed.

(** C4, as it stands, fails on the code.  The call of lines 46-53 does not
    pass the photometric interpretation.  For the two-by-two study read once
    as MONOCHROME1 and once as MONOCHROME2, no normalizer at all returns two
    non-empty complementary rasters. *)
Lemma photometric_rasters_not_complementary :
  ~ (exists (L : Lib) (raster1 raster2 : list Z),
        normalizeCall L (withPhotometric (Some "MONOCHROME1"%string) Example.info)
        = inr raster1
        /\ normalizeCall L (withPhotometric (Some "MONOCHROME2"%string) Example.info)
           = inr raster2
        /\ raster1 <> []
        /\ complementary raster1 raster2).
Proof.
  intros (L & raster1 & raster2 & H1 & H2 & N & C).
  change (normalizeCall L (withPhotometric (Some "MONOCHROME2"%string) Example.info))
    with (normalizeCall L (withPhotometric (Some "MONOCHROME1"%string) Example.info)) in H2.
  rewrite H1 in H2. injection H2 as <-.
  exact (not_self_complementary raster1 N C).
Qed.

(** C4, amended.  The photometric interpretation is not among the values
    [handleFile] gives to the normalizer: records that differ only in it get
    the same options, the same call, hence the same raster (which, when not
    empty, is not the complement of itself) and the same classification; and
    whatever photometric interpretation the decoder reports, [handleFile]
    ends in the same state. *)
Theorem photometric_is_not_passed (L : Lib) (P : Platform) (info : DicomInfo.t)
    (photometric1 photometric2 : option string) (file : File.t) (w : World.t) :
  normalizeOptions (withPhotometric photometric1 info)
  = normalizeOptions (withPhotometric photometric2 info)
  /\ normalizeCall L (withPhotometric photometric1 info)
     = normalizeCall L (withPhotometric photometric2 info)
  /\ (forall raster1 raster2 : list Z,
         normalizeCall L (withPhotometric photometric1 info) = inr raster1 ->
         normalizeCall L (withPhotometric photometric2 info) = inr raster2 ->
         raster1 = raster2 /\ (raster1 <> [] -> ~ complementary raster1 raster2))
  /\ classifyDicom L P (withPhotometric photometric1 info)
     = classifyDicom L P (withPhotometric photometric2 info)
  /\ handleFile (mapParsed (withPhotometric photometric1) L) P file w
     = handleFile (mapParsed (withPhotometric photometric2) L) P file w.
Proof.
  split; [reflexivity | split; [reflexivity | split; [| split; [reflexivity |]]]].
  - intros raster1 raster2 H1 H2.
    change (normalizeCall L (withPhotometric photometric2 info))
      with (normalizeCall L (withPhotometric photometric1 info)) in H2.
    rewrite H1 in H2. injection H2 as <-.
    split; [reflexivity | apply not_self_complementary].
  - rewrite !handleFile_same; [reflexivity | |];
      intros i; repeat split.
Qed.

(** C5, as it stands, fails on the code.  The call of lines 46-53 passes
    neither [bitsAllocated] nor [pixelRepresentation].  No normalizer at all
    accepts the two-by-two study declared as 8-bit and rejects the same
    study declared as 32-bit. *)
Lemma bit_depth_is_not_rejected :
  ~ (exists L : Lib,
        isOk (normalizeCall L (withSampleFormat (Some 8) (Some 0) Example.info)) = true
        /\ isOk (normalizeCall L (withSampleFormat (Some 32) (Some 0) Example.info)) = false).
Proof.
  intros (L & H8 & H32).
  change (normalizeCall L (withSampleFormat (Some 32) (Some 0) Example.info))
    with (normalizeCall L (withSampleFormat (Some 8) (Some 0) Example.info)) in H32.
  rewrite H8 in H32. discriminate.
Qed.

(** C5, amended.  The normalizer is called with the pixel data and the six
    options [rows], [columns], [rescaleSlope], [rescaleIntercept],
    [windowCenter], [windowWidth].  The declared sample width and signedness
    are not passed: records that differ only in them get the same options
    and the same outcome of the call, be it a raster or an exception; and
    whatever sample format the decoder reports, [handleFile] ends in the
    same state. *)
Theorem sample_format_is_not_passed (L : Lib) (P : Platform) (info : DicomInfo.t)
    (bits1 representation1 bits2 representation2 : option Z)
    (file : File.t) (w : World.t) :
  normalizeOptions (withSampleFormat bits1 representation1 info)
  = {| NormalizeOptions.rows := number (DicomInfo.rows info);
       NormalizeOptions.columns := number (DicomInfo.columns info);
       NormalizeOptions.rescaleSlope := DicomInfo.rescaleSlope info;
       NormalizeOptions.rescaleIntercept := DicomInfo.rescaleIntercept info;
       NormalizeOptions.windowCenter := DicomInfo.windowCenter info;
       NormalizeOptions.windowWidth := DicomInfo.windowWidth info |}
  /\ normalizeCall L (withSampleFormat bits1 representation1 info)
     = normalizeCall L (withSampleFormat bits2 representation2 info)
  /\ isOk (normalizeCall L (withSampleFormat bits1 representation1 info))
     = isOk (normalizeCall L (withSampleFormat bits2 representation2 info))
  /\ handleFile (mapParsed (withSampleFormat bits1 representation1) L) P file w
     = handleFile (mapParsed (withSampleFormat bits2 representation2) L) P file w.
Proof.
  split; [reflexivity | split; [reflexivity | split; [reflexivity |]]].
  rewrite !handleFile_same; [reflexivity | |]; intros i; repeat split.
Qed.


(** C8.  [handleFile] is deterministic: what it leaves in the component
    state does not depend on the state and the canvas it starts from, and a
    second run on the same file changes nothing the first run left.  (The
    library functions, [drawImage] and the image decoder are functions of
    their arguments.) *)
Theorem handleFile_is_deterministic (L : Lib) (P : Platform) (file : File.t)
    (w : World.t) :
  handleFile L P file (handleFile L P file w) = handleFile L P file w
  /\ (forall w' : World.t,
         World.ui (handleFile L P file w') = World.ui (handleFile L P file w)).
Proof.
  unfold handleFile.
  destruct (run_blind L P file) as [[o H] | [k [o H]]].
  - split; [| intros w']; rewrite !H; simpl; rewrite ?H; reflexivity.
  - split; [| intros w']; rewrite !H; simpl; rewrite ?H; reflexivity.
Qed.


(** The metadata record has exactly the nine properties of [metaFields]. *)
Lemma metaOf_fields (info : DicomInfo.t) :
  dom (metaOf info) = list_to_set metaFields.
Proof.
  unfold metaOf, metaFields. rewrite !dom_insert_L, dom_empty_L. simpl.
  set_solver.
Qed.

Lemma metaOf_values (info : DicomInfo.t) :
  metaOf info !! "modality"%string = Some (ofString (DicomInfo.modality info))
  /\ metaOf info !! "transferSyntax"%string = Some (ofString (DicomInfo.transferSyntax info))
  /\ metaOf info !! "rows"%string = Some (ofInteger (DicomInfo.rows info))
  /\ metaOf info !! "columns"%string = Some (ofInteger (DicomInfo.columns info))
  /\ metaOf info !! "windowCenter"%string = Some (ofNumber (DicomInfo.windowCenter info))
  /\ metaOf info !! "windowWidth"%string = Some (ofNumber (DicomInfo.windowWidth info))
  /\ metaOf info !! "rescaleSlope"%string = Some (ofNumber (DicomInfo.rescaleSlope info))
  /\ metaOf info !! "rescaleIntercept"%string
     = Some (ofNumber (DicomInfo.rescaleIntercept info))
  /\ metaOf info !! "frames"%string = Some (ofInteger (DicomInfo.numberOfFrames info)).
Proof. unfold metaOf. repeat split; simplify_map_eq; reflexivity. Qed.

(** The classification is that of the analyzed raster: whatever record
    leads to a raster gets the classification of that raster. *)
Lemma classifyDicom_of_raster (L : Lib) (P : Platform) (info : DicomInfo.t)
    (c c' : Canvas.t) (analyzed : ImageData.t) :
  analyzeParsed L P info c = (c', inr analyzed) ->
  classifyDicom L P info c = (c', classifyAnalyzed L analyzed).
Proof. intros E. unfold classifyDicom, bind, call. rewrite E. reflexivity. Qed.

(** C9.  On the DICOM branch the value given to [setResult] consists of the
    label and the two probabilities [classifyFeatures] returns for the
    features [computeFeaturesFromImageData] extracts from the analyzed
    raster, and of a metadata record with exactly the properties modality,
    transferSyntax, rows, columns, windowCenter, windowWidth, rescaleSlope,
    rescaleIntercept and frames, each holding the value of the parsed record
    (the modality is also repeated beside the record).  None of the nine
    values is an argument of the classifier: the classification is that of
    the analyzed raster, so any record at all, whatever its nine values, that
    leads to the same raster gets the same classification; and the
    modality, the transfer syntax and the frame count do not even reach the
    raster. *)
Theorem result_is_classification_and_metadata (L : Lib) (P : Platform)
    (file : File.t) (w : World.t) (r : Result.t) :
  isLikelyDicom L (File.bytes file) = inr true ->
  Ui.result (World.ui (handleFile L P file w)) = Some r ->
  exists (info : DicomInfo.t) (analyzed : ImageData.t) (features : Features L)
         (classification : Classification.t) (c' : Canvas.t)
         (meta : gmap string JsValue),
    parseDicom L (File.bytes file) = inr (Some info)
    /\ analyzeParsed L P info (World.canvas w) = (c', inr analyzed)
    /\ computeFeaturesFromImageData L analyzed = inr features
    /\ classifyFeatures L features = inr classification
    /\ Result.label r = Classification.label classification
    /\ Result.probabilityCT r = Classification.probabilityCT classification
    /\ Result.probabilityMRI r = Classification.probabilityMRI classification
    /\ Result.modality r = DicomInfo.modality info
    /\ Result.meta r = Some meta
    /\ dom meta = list_to_set metaFields
    /\ meta !! "modality"%string = Some (ofString (DicomInfo.modality info))
    /\ meta !! "transferSyntax"%string = Some (ofString (DicomInfo.transferSyntax info))
    /\ meta !! "rows"%string = Some (ofInteger (DicomInfo.rows info))
    /\ meta !! "columns"%string = Some (ofInteger (DicomInfo.columns info))
    /\ meta !! "windowCenter"%string = Some (ofNumber (DicomInfo.windowCenter info))
    /\ meta !! "windowWidth"%string = Some (ofNumber (DicomInfo.windowWidth info))
    /\ meta !! "rescaleSlope"%string = Some (ofNumber (DicomInfo.rescaleSlope info))
    /\ meta !! "rescaleIntercept"%string
       = Some (ofNumber (DicomInfo.rescaleIntercept info))
    /\ meta !! "frames"%string = Some (ofInteger (DicomInfo.numberOfFrames info))
    /\ (forall (other : DicomInfo.t) (c2 c2' : Canvas.t),
           analyzeParsed L P other c2 = (c2', inr analyzed) ->
           classifyDicom L P other c2 = (c2', inr classification))
    /\ (forall (modality transferSyntax : option string) (frames : option Z),
           analyzeParsed L P (withDisplayValues modality transferSyntax frames info)
           = analyzeParsed L P info
           /\ classifyDicom L P (withDisplayValues modality transferSyntax frames info)
              = classifyDicom L P info).
Proof.
  intros D R.
  destruct (handleFile_dicom_result L P file w r D R) as [c' B].
  destruct (dicomBranch_inr L P _ _ _ _ B) as (info & cls & Hp & Hc & Hd & ->).
  destruct (classifyDicom_inr L P _ _ _ _ Hd) as (analyzed & Ha & Hcls).
  pose proof Hcls as Hk. unfold classifyAnalyzed in Hk.
  destruct (computeFeaturesFromImageData L analyzed) as [e | features] eqn:Hf;
    [discriminate |].
  pose proof (metaOf_values info) as (V1 & V2 & V3 & V4 & V5 & V6 & V7 & V8 & V9).
  exists info, analyzed, features, cls, c', (metaOf info).
  repeat match goal with |- _ /\ _ => split end; try assumption;
    try first [apply metaOf_fields | reflexivity].
  - intros other c2 c2' E.
    rewrite (classifyDicom_of_raster L P other c2 c2' analyzed E), Hcls. reflexivity.
  - intros modality transferSyntax frames. split; reflexivity.
Qed.

(** The result of the example run, taken apart. *)
Lemma result_is_classification_and_metadata_witness :
  exists (info : DicomInfo.t) (analyzed : ImageData.t) (features : Q)
         (classification : Classification.t) (c' : Canvas.t)
         (meta : gmap string JsValue),
    parseDicom Example.lib (File.bytes Example.dicomFile) = inr (Some info)
    /\ analyzeParsed Example.lib Example.platform info (World.canvas Example.world)
       = (c', inr analyzed)
    /\ computeFeaturesFromImageData Example.lib analyzed = inr features
    /\ classifyFeatures Example.lib features = inr classification
    /\ CT = Classification.label classification
    /\ (34680 # 65280)%Q = Classification.probabilityCT classification
    /\ (30600 # 65280)%Q = Classification.probabilityMRI classification
    /\ Some "CT"%string = DicomInfo.modality info
    /\ Some (metaOf Example.info) = Some meta
    /\ dom meta = list_to_set metaFields
    /\ meta !! "modality"%string = Some (ofString (DicomInfo.modality info))
    /\ meta !! "transferSyntax"%string = Some (ofString (DicomInfo.transferSyntax info))
    /\ meta !! "rows"%string = Some (ofInteger (DicomInfo.rows info))
    /\ meta !! "columns"%string = Some (ofInteger (DicomInfo.columns info))
    /\ meta !! "windowCenter"%string = Some (ofNumber (DicomInfo.windowCenter info))
    /\ meta !! "windowWidth"%string = Some (ofNumber (DicomInfo.windowWidth info))
    /\ meta !! "rescaleSlope"%string = Some (ofNumber (DicomInfo.rescaleSlope info))
    /\ meta !! "rescaleIntercept"%string
       = Some (ofNumber (DicomInfo.rescaleIntercept info))
    /\ meta !! "frames"%string = Some (ofInteger (DicomInfo.numberOfFrames info))
    /\ (forall (other : DicomInfo.t) (c2 c2' : Canvas.t),
           analyzeParsed Example.lib Example.platform other c2 = (c2', inr analyzed) ->
           classifyDicom Example.lib Example.platform other c2
           = (c2', inr classification))
    /\ (forall (modality transferSyntax : option string) (frames : option Z),
           analyzeParsed Example.lib Example.platform
             (withDisplayValues modality transferSyntax frames info)
           = analyzeParsed Example.lib Example.platform info
           /\ classifyDicom Example.lib Example.platform
                (withDisplayValues modality transferSyntax frames info)
              = classifyDicom Example.lib Example.platform info).
Proof.
  exact (result_is_classification_and_metadata Example.lib Example.platform
           Example.dicomFile Example.world
           {| Result.label := CT;
              Result.probabilityCT := 34680 # 65280;
              Result.probabilityMRI := 30600 # 65280;
              Result.modality := Some "CT"%string;
              Result.meta := Some (metaOf Example.info) |}
           eq_refl eq_refl).
Defined.


(* ===================================================================== *)
(** * Statements about the library functions as specified *)
(* ===================================================================== *)

Lemma byteIs_true (buffer : list byte) (offset : nat) (b : byte) :
  Spec.byteIs buffer offset b = true <-> nth_error buffer offset = Some b.
Proof.
  unfold Spec.byteIs. destruct (nth_error buffer offset) as [x |].
  - split.
    + intros H. apply byte_dec_bl in H. now subst.
    + intros H. injection H as ->. now apply byte_dec_lb.
  - split; discriminate.
Qed.

(** The four bytes from offset 128 on, read one by one. *)
Lemma slice_at_128 (buffer : list byte) (a b c d : byte) :
  firstn 4 (skipn 128 buffer) = [a; b; c; d]
  <-> nth_error buffer 128 = Some a /\ nth_error buffer 129 = Some b
      /\ nth_error buffer 130 = Some c /\ nth_error buffer 131 = Some d.
Proof.
  pose proof (nth_error_skipn 128 buffer 0) as E0.
  pose proof (nth_error_skipn 128 buffer 1) as E1.
  pose proof (nth_error_skipn 128 buffer 2) as E2.
  pose proof (nth_error_skipn 128 buffer 3) as E3.
  change (128 + 0)%nat with 128%nat in E0. change (128 + 1)%nat with 129%nat in E1.
  change (128 + 2)%nat with 130%nat in E2. change (128 + 3)%nat with 131%nat in E3.
  rewrite <- E0, <- E1, <- E2, <- E3. clear E0 E1 E2 E3.
  destruct (skipn 128 buffer) as [| x0 [| x1 [| x2 [| x3 rest]]]]; simpl;
    split; try discriminate; try (intros (? & ? & ? & ?); discriminate).
  - intros E. injection E as -> -> -> ->. auto.
  - intros (E0 & E1 & E2 & E3).
    injection E0 as ->. injection E1 as ->. injection E2 as ->. injection E3 as ->.
    reflexivity.
Qed.

(** C6.  [isLikelyDicom] holds exactly of the buffers whose bytes at offsets
    128 to 131 spell ["DICM"]; it is false of every buffer shorter than 132
    bytes, the empty one included. *)
Theorem isLikelyDicom_iff_magic (buffer : list byte) :
  (Spec.isLikelyDicom buffer = true <-> firstn 4 (skipn 128 buffer) = Spec.magic)
  /\ ((List.length buffer < 132)%nat -> Spec.isLikelyDicom buffer = false)
  /\ Spec.isLikelyDicom [] = false.
Proof.
  assert (Iff : Spec.isLikelyDicom buffer = true
                <-> firstn 4 (skipn 128 buffer) = Spec.magic).
  { change Spec.magic with [x44; x49; x43; x4d]. rewrite slice_at_128.
    unfold Spec.isLikelyDicom. rewrite !andb_true_iff, !byteIs_true.
    split.
    - intros ((((_ & A) & B) & C) & D). auto.
    - intros (A & B & C & D). repeat split; try assumption.
      apply Nat.leb_le.
      assert (H : (131 < List.length buffer)%nat)
        by (apply nth_error_Some; rewrite D; discriminate).
      lia. }
  split; [exact Iff | split].
  - intros Short. unfold Spec.isLikelyDicom.
    destruct (Nat.leb_spec 132 (List.length buffer)) as [Long | _]; [lia | reflexivity].
  - reflexivity.
Qed.


Lemma hardSigmoid_range (x : Q) : (0 <= Spec.hardSigmoid x <= 1)%Q.
Proof.
  unfold Spec.hardSigmoid. split.
  - apply Q.le_max_l.
  - apply Q.max_lub; [lra | apply Q.le_min_l].
Qed.

Lemma roundoff_is_tiny :
  (0 <= Float64.u <= 1 # 10000000000)%Q /\ (0 <= Float64.eta <= 1 # 10000000000)%Q.
Proof. unfold Float64.u, Float64.eta, Qle; simpl; lia. Qed.

(** What rounding does to a value between 0 and 2. *)
Lemma rnd_near (rnd : Q -> Q) (x : Q) :
  Float64.Float64Rounding rnd -> (0 <= x <= 2)%Q ->
  (x - (3 # 10000000000) <= rnd x <= x + (3 # 10000000000))%Q.
Proof.
  intros F [H0 H2].
  pose proof roundoff_is_tiny as [[U0 U1] [E0 E1]].
  assert (A : (Qabs x == x)%Q) by now apply Qabs_pos.
  assert (B : (Qabs x <= Float64.big)%Q).
  { rewrite A. apply Qle_trans with 2%Q; [exact H2 |].
    unfold Float64.big, Qle; simpl; lia. }
  pose proof (Float64.rnd_err rnd F x B) as E. rewrite A in E.
  apply Qabs_Qle_condition in E.
  assert (UX : (Float64.u * x <= 2 # 10000000000)%Q) by nra.
  lra.
Qed.

(** C3.  For every feature vector the two probabilities of [classify] add
    up to 1 within [1e-9] (as exact numbers, and when the sum is itself
    computed in floating point), the label is CT exactly when
    [probabilityCT >= 0.5], and a tie at 0.5 gives CT.  [classify] is a
    total function: it returns a classification for every input. *)
Theorem classify_invariant (rnd sigmoid : Q -> Q) (bias : Q) (weights features : list Q) :
  Float64.Float64Rounding rnd ->
  (forall x : Q, (0 <= sigmoid x <= 1)%Q) ->
  let r := Spec.classify rnd sigmoid bias weights features in
  let ct := Classification.probabilityCT r in
  let mri := Classification.probabilityMRI r in
  (Qabs (ct + mri - 1) <= 1 # 1000000000)%Q
  /\ (Qabs (rnd (ct + mri) - 1) <= 1 # 1000000000)%Q
  /\ (Classification.label r = CT <-> (1 # 2 <= ct)%Q)
  /\ ((ct == 1 # 2)%Q -> Classification.label r = CT)
  /\ (Classification.label r = MRI <-> (ct < 1 # 2)%Q).
Proof.
  intros F Range r ct mri. subst r ct mri. unfold Spec.classify.
  cbn [Classification.probabilityCT Classification.probabilityMRI Classification.label].
  set (p := sigmoid (Spec.score rnd bias weights features)).
  pose proof (Range (Spec.score rnd bias weights features)) as [P0 P1]. fold p in P0, P1.
  assert (Hq : (0 <= 1 - p <= 2)%Q) by lra.
  pose proof (rnd_near rnd (1 - p) F Hq) as [Q0 Q1].
  set (q := rnd (1 - p)%Q) in *.
  assert (Ht : (0 <= p + q <= 2)%Q) by lra.
  pose proof (rnd_near rnd (p + q) F Ht) as [T0 T1].
  assert (L : Qle_bool (1 # 2) p = true <-> (1 # 2 <= p)%Q) by apply Qle_bool_iff.
  repeat match goal with |- _ /\ _ => split end.
  - apply Qabs_Qle_condition. lra.
  - apply Qabs_Qle_condition. lra.
  - destruct (Qle_bool (1 # 2) p); split; intros H;
      try reflexivity; try discriminate; try (now apply L).
    apply L in H. discriminate.
  - intros E. destruct (Qle_bool (1 # 2) p) eqn:B; [reflexivity |].
    assert (H : (1 # 2 <= p)%Q) by lra. apply L in H. discriminate.
  - destruct (Qle_bool (1 # 2) p) eqn:B; split; intros H;
      try reflexivity; try discriminate.
    + assert (H' : (1 # 2 <= p)%Q) by now apply L. lra.
    + apply Qnot_le_lt. intros H'. apply L in H'. discriminate.
Qed.

(** The invariant for one feature, weight 1, bias -1/2, exact arithmetic
    and the piecewise-linear sigmoid. *)
Lemma classify_invariant_witness :
  let r := Spec.classify Float64.exact Spec.hardSigmoid (-(1 # 2)) [1%Q] [2%Q] in
  let ct := Classification.probabilityCT r in
  let mri := Classification.probabilityMRI r in
  (Qabs (ct + mri - 1) <= 1 # 1000000000)%Q
  /\ (Qabs (Float64.exact (ct + mri) - 1) <= 1 # 1000000000)%Q
  /\ (Classification.label r = CT <-> (1 # 2 <= ct)%Q)
  /\ ((ct == 1 # 2)%Q -> Classification.label r = CT)
  /\ (Classification.label r = MRI <-> (ct < 1 # 2)%Q).
Proof.
  exact (classify_invariant Float64.exact Spec.hardSigmoid (-(1 # 2)) [1%Q] [2%Q]
           exact_rounding hardSigmoid_range).
Defined.


Lemma clamp_mono (lo hi x y : Q) :
  (x <= y)%Q -> (Spec.clamp lo hi x <= Spec.clamp lo hi y)%Q.
Proof.
  intros H. unfold Spec.clamp.
  apply Q.max_le_compat_l. now apply Q.min_le_compat_l.
Qed.

Lemma rescale_mono (slope intercept : Q) (s1 s2 : Z) :
  (0 <= slope)%Q -> s1 <= s2 ->
  (Spec.rescale slope intercept s1 <= Spec.rescale slope intercept s2)%Q.
Proof.
  intros Hs H. unfold Spec.rescale. rewrite (Zle_Qle s1 s2) in H. nra.
Qed.

(** The window derived from the minimum and the maximum is at least 1 wide. *)
Lemma default_window_width (center width : option Q) (values : list Q) :
  center = None \/ width = None ->
  (1 <= snd (Spec.window center width values))%Q.
Proof.
  intros [-> | ->]; unfold Spec.window; [| destruct center]; simpl; apply Q.le_max_l.
Qed.

(** Steps 4 and 5 keep the order of the values, for a window of positive
    width and an interpretation that does not invert. *)
Lemma toGray_mono (quantize : Q -> Z) (win : Q * Q) (photometric : Spec.Photometric)
    (v1 v2 : Q) :
  (forall x y : Q, (x <= y)%Q -> quantize x <= quantize y) ->
  (0 < snd win)%Q -> photometric <> Spec.MONOCHROME1 -> (v1 <= v2)%Q ->
  Spec.toGray quantize win photometric v1 <= Spec.toGray quantize win photometric v2.
Proof.
  intros Hq Hw Hp Hv. unfold Spec.toGray.
  assert (M : quantize (Spec.clamp 0 255
                          ((v1 - (fst win - snd win / 2)) / snd win * 255))
              <= quantize (Spec.clamp 0 255
                             ((v2 - (fst win - snd win / 2)) / snd win * 255))).
  { apply Hq, clamp_mono.
    apply Qmult_le_compat_r; [| discriminate].
    unfold Qdiv. apply Qmult_le_compat_r; [lra |].
    apply Qinv_le_0_compat. lra. }
  destruct photometric; [contradiction | exact M | exact M].
Qed.

Lemma roundHalfUp_mono (x y : Q) :
  (x <= y)%Q -> Spec.roundHalfUp x <= Spec.roundHalfUp y.
Proof. intros H. unfold Spec.roundHalfUp. apply Qfloor_resp_le. lra. Qed.

(** C7, as it stands, fails.  With rescale slope -1 the samples 0, 85, 170,
    255 are normalized, under the default window, to 255, 170, 85, 0: the
    first sample is below the second and its normalized value is above.  The
    same happens with slope 2 when the study is read as MONOCHROME1. *)
Lemma negative_slope_reverses_order :
  Spec.decodeSamples 8 Spec.Unsigned [0; 85; 170; 255] 4 = inr [0; 85; 170; 255]
  /\ Spec.normalize Spec.roundHalfUp [0; 85; 170; 255] Example.paramsNegativeSlope
     = inr {| Spec.GrayscaleRaster.width := 2;
              Spec.GrayscaleRaster.height := 2;
              Spec.GrayscaleRaster.samples := [255; 170; 85; 0] |}
  /\ Spec.normalize Spec.roundHalfUp [0; 85; 170; 255] Example.paramsMonochrome1
     = inr {| Spec.GrayscaleRaster.width := 2;
              Spec.GrayscaleRaster.height := 2;
              Spec.GrayscaleRaster.samples := [255; 170; 85; 0] |}
  /\ 0 < 85 /\ ~ 255 <= 170.
Proof. repeat split. lia. Qed.

(** C7, amended.  With the default window, a rescale slope that is not
    negative and a photometric interpretation other than MONOCHROME1, the
    normalizer keeps the order of the stored samples: a smaller sample never
    gets a larger normalized value.  (Any rounding to bytes that is itself
    monotone will do.) *)
Theorem normalize_monotone (quantize : Q -> Z) (pixelData : list Z)
    (p : Spec.Params.t) (stored : list Z) (raster : Spec.GrayscaleRaster.t) :
  (forall x y : Q, (x <= y)%Q -> quantize x <= quantize y) ->
  Spec.Params.windowCenter p = None \/ Spec.Params.windowWidth p = None ->
  (0 <= Spec.Params.rescaleSlope p)%Q ->
  Spec.Params.photometricInterpretation p <> Spec.MONOCHROME1 ->
  Spec.decodeSamples (Spec.Params.bitsAllocated p) (Spec.Params.pixelRepresentation p)
                     pixelData (Spec.Params.rows p * Spec.Params.columns p)
  = inr stored ->
  Spec.normalize quantize pixelData p = inr raster ->
  List.length (Spec.GrayscaleRaster.samples raster) = List.length stored
  /\ forall (i j : nat) (si sj ni nj : Z),
      nth_error stored i = Some si ->
      nth_error stored j = Some sj ->
      nth_error (Spec.GrayscaleRaster.samples raster) i = Some ni ->
      nth_error (Spec.GrayscaleRaster.samples raster) j = Some nj ->
      si < sj -> ni <= nj.
Proof.
  intros Hq Hwin Hslope Hph Hdec Hnorm.
  unfold Spec.normalize in Hnorm. rewrite Hdec in Hnorm.
  injection Hnorm as <-. cbn [Spec.GrayscaleRaster.samples].
  split; [now rewrite !length_map |].
  intros i j si sj ni nj Hi Hj Hni Hnj Hlt.
  rewrite !nth_error_map, Hi in Hni. rewrite !nth_error_map, Hj in Hnj.
  simpl in Hni, Hnj. injection Hni as <-. injection Hnj as <-.
  apply toGray_mono; try assumption.
  - apply Qlt_le_trans with 1%Q; [reflexivity |].
    now apply default_window_width.
  - apply rescale_mono; [assumption | lia].
Qed.

(** The second scenario of the specification (slope 2, intercept -50):
    the samples 0, 85, 170, 255 keep their order. *)
Lemma normalize_monotone_witness :
  List.length [0; 85; 170; 255] = List.length [0; 85; 170; 255]
  /\ forall (i j : nat) (si sj ni nj : Z),
      nth_error [0; 85; 170; 255] i = Some si ->
      nth_error [0; 85; 170; 255] j = Some sj ->
      nth_error [0; 85; 170; 255] i = Some ni ->
      nth_error [0; 85; 170; 255] j = Some nj ->
      si < sj -> ni <= nj.
Proof.
  apply (normalize_monotone Spec.roundHalfUp [0; 85; 170; 255] Example.params
           [0; 85; 170; 255]
           {| Spec.GrayscaleRaster.width := 2;
              Spec.GrayscaleRaster.height := 2;
              Spec.GrayscaleRaster.samples := [0; 85; 170; 255] |}
           roundHalfUp_mono).
  - left. reflexivity.
  - simpl. unfold Qle. simpl. lia.
  - discriminate.
  - reflexivity.
  - reflexivity.
Defined.


(* ===================================================================== *)
(** * Further properties of the component *)
(* ===================================================================== *)

Lemma catchMessage_nonempty (e : Thrown) : catchMessage e <> ""%string.
Proof.
  unfold catchMessage. destruct (String.eqb_spec (errorMessage e) "") as [E | N].
  - discriminate.
  - exact N.
Qed.

(** With both sides non-zero [drawAndRead] returns; it leaves the canvas
    painted and hands back a raster of the requested size. *)
Lemma drawAndRead_returns (P : Platform) (source : ImageSource) (width height : Z)
    (c : Canvas.t) :
  width <> 0 -> height <> 0 ->
  exists analyzed : ImageData.t,
    drawAndRead P source width height c = (painted P source width height, inr analyzed)
    /\ ImageData.width analyzed = width
    /\ ImageData.height analyzed = height.
Proof.
  intros Hw Hh.
  unfold drawAndRead, bind, update, readCanvas, call; simpl.
  unfold getImageData.
  destruct (Z.eqb_spec width 0) as [E | _]; [contradiction |].
  destruct (Z.eqb_spec height 0) as [E | _]; [contradiction |].
  simpl. eexists. split; [reflexivity | split; reflexivity].
Qed.

Lemma fitDim_nonzero (rnd : Q -> Q) (d : Z) (s : Q) : fitDim rnd d s <> 0.
Proof. pose proof (fitDim_ge_1 rnd d s). lia. Qed.

Lemma handleFile_settled (L : Lib) (P : Platform) (file : File.t) (w : World.t) :
  settled (World.ui (handleFile L P file w)).
Proof.
  unfold handleFile.
  destruct (run L P file (World.canvas w)) as [c outcome] eqn:R.
  unfold settled. simpl. split; [reflexivity | split].
  - destruct outcome; auto.
  - intros m E. destruct outcome as [r | m' | ]; try discriminate.
    injection E as ->. revert R. unfold run, File.arrayBuffer.
    destruct (File.unreadable file) as [e |];
      [intros R; injection R as _ <-; apply catchMessage_nonempty |].
    destruct (hasContext2d P); simpl.
    + destruct (isLikelyDicom L (File.bytes file)) as [e | [|]].
      * intros R. injection R as _ <-. apply catchMessage_nonempty.
      * destruct (dicomBranch L P (File.bytes file) (World.canvas w)) as [k [e | r]].
        -- intros R. injection R as _ <-. apply catchMessage_nonempty.
        -- discriminate.
      * destruct (decodeImage P (File.bytes file) (blobType file)) as [img |].
        -- destruct (onload L P img (World.canvas w)) as [k [e | r]]; discriminate.
        -- intros R. injection R as _ <-. discriminate.
    + intros R. injection R as _ <-. discriminate.
Qed.

(** X1.  Between uploads the component is settled: after any sequence of
    selections, empty ones included, nothing is loading, result and error
    are never both set, and an error that is set is never the empty text. *)
Theorem session_stays_settled (L : Lib) (P : Platform)
    (selections : list (list File.t)) :
  settled (World.ui (session L P selections initialWorld)).
Proof.
  unfold session.
  assert (Init : settled (World.ui initialWorld)).
  { unfold settled, initialWorld. simpl. repeat split; auto; discriminate. }
  revert Init. generalize initialWorld as w.
  induction selections as [| files rest IH]; intros w Hw; simpl.
  - exact Hw.
  - apply IH. destruct files as [| file more]; simpl.
    + exact Hw.
    + apply handleFile_settled.
Qed.


Lemma analyzeImage_returns (P : Platform) (img : Image.t) (c : Canvas.t) :
  let scale := fitScale (round64 P) 768 (Image.width img) (Image.height img) in
  let width := fitDim (round64 P) (Image.width img) scale in
  let height := fitDim (round64 P) (Image.height img) scale in
  exists analyzed : ImageData.t,
    analyzeImage P img c = (painted P (FromImage img) width height, inr analyzed)
    /\ ImageData.width analyzed = width
    /\ ImageData.height analyzed = height.
Proof.
  cbv zeta. unfold analyzeImage. apply drawAndRead_returns; apply fitDim_nonzero.
Qed.

Lemma analyzeParsed_returns (L : Lib) (P : Platform) (info : DicomInfo.t)
    (imageData : ImageData.t) (c : Canvas.t) :
  renderDicom L P info = inr imageData ->
  exists analyzed : ImageData.t,
    analyzeParsed L P info c
    = (painted P (FromCanvas (tempCanvas info imageData))
               (dicomWidth P info) (dicomHeight P info), inr analyzed)
    /\ ImageData.width analyzed = dicomWidth P info
    /\ ImageData.height analyzed = dicomHeight P info.
Proof.
  intros R. rewrite analyzeParsed_unfold, R. cbv zeta.
  apply drawAndRead_returns; apply fitDim_nonzero.
Qed.

Lemma analyzeParsed_throws (L : Lib) (P : Platform) (info : DicomInfo.t)
    (e : Thrown) (c : Canvas.t) :
  renderDicom L P info = inl e -> analyzeParsed L P info c = (c, inl e).
Proof. intros R. rewrite analyzeParsed_unfold, R. reflexivity. Qed.

(** X2.  Reading the canvas back never throws, because both sides passed to
    [getImageData] are at least 1: once an image has been decoded its raster
    is always obtained, and on the DICOM branch the raster is obtained
    exactly when lines 46-60 returned (the normalizer returned, its buffer
    was accepted by [new ImageData], and the temporary canvas had a
    context); when they did not, the canvas has not been touched. *)
Theorem read_back_never_throws (L : Lib) (P : Platform) :
  (forall (img : Image.t) (c : Canvas.t),
      exists (c' : Canvas.t) (analyzed : ImageData.t),
        analyzeImage P img c = (c', inr analyzed)
        /\ 1 <= ImageData.width analyzed /\ 1 <= ImageData.height analyzed)
  /\ (forall (info : DicomInfo.t) (c : Canvas.t),
         match renderDicom L P info with
         | inl e => analyzeParsed L P info c = (c, inl e)
         | inr imageData =>
             exists analyzed : ImageData.t,
               analyzeParsed L P info c
               = (painted P (FromCanvas (tempCanvas info imageData))
                          (dicomWidth P info) (dicomHeight P info), inr analyzed)
               /\ 1 <= ImageData.width analyzed /\ 1 <= ImageData.height analyzed
         end).
Proof.
  split.
  - intros img c.
    destruct (analyzeImage_returns P img c) as (analyzed & E & Hw & Hh).
    eexists _, analyzed. split; [exact E |]. rewrite Hw, Hh.
    split; apply fitDim_ge_1.
  - intros info c. destruct (renderDicom L P info) as [e | imageData] eqn:R.
    + now apply analyzeParsed_throws.
    + destruct (analyzeParsed_returns L P info imageData c R) as (analyzed & E & Hw & Hh).
      exists analyzed. split; [exact E |]. rewrite Hw, Hh.
      split; apply fitDim_ge_1.
Qed.

(** X3.  A file taken for DICOM always ends with exactly one of result and
    error: a result and no error, or an error and no result. *)
Theorem dicom_branch_reports (L : Lib) (P : Platform) (file : File.t) (w : World.t) :
  isLikelyDicom L (File.bytes file) = inr true ->
  let ui := World.ui (handleFile L P file w) in
  (exists r : Result.t, Ui.result ui = Some r /\ Ui.error ui = None)
  \/ (exists m : string, Ui.error ui = Some m /\ Ui.result ui = None).
Proof.
  intros D. cbv zeta. unfold handleFile, run, File.arrayBuffer.
  destruct (File.unreadable file); simpl; [right; eauto |]. rewrite D.
  destruct (hasContext2d P); simpl; [| right; eauto].
  destruct (dicomBranch L P (File.bytes file) (World.canvas w)) as [k [e | r]]; simpl;
    [right | left]; eauto.
Qed.

(** The example study ends with a result and no error. *)
Lemma dicom_branch_reports_witness :
  let ui := World.ui (handleFile Example.lib Example.platform Example.dicomFile
                                 initialWorld) in
  (exists r : Result.t, Ui.result ui = Some r /\ Ui.error ui = None)
  \/ (exists m : string, Ui.error ui = Some m /\ Ui.result ui = None).
Proof.
  exact (dicom_branch_reports Example.lib Example.platform Example.dicomFile
           initialWorld eq_refl).
Defined.

(** X4.  On the generic-image branch, once the file has been read and the
    image has been decoded no error is ever reported.  The run ends with neither result nor error
    exactly when the feature extractor or the classifier throws inside the
    [onload] handler; the preview canvas has been repainted all the same. *)
Theorem onload_failure_is_silent (L : Lib) (P : Platform) (file : File.t)
    (w : World.t) (img : Image.t) :
  File.unreadable file = None ->
  hasContext2d P = true ->
  isLikelyDicom L (File.bytes file) = inr false ->
  decodeImage P (File.bytes file) (blobType file) = Some img ->
  let after := handleFile L P file w in
  Ui.error (World.ui after) = None
  /\ (Ui.result (World.ui after) = None
      <-> exists (c' : Canvas.t) (analyzed : ImageData.t) (e : Thrown),
            analyzeImage P img (World.canvas w) = (c', inr analyzed)
            /\ classifyAnalyzed L analyzed = inl e)
  /\ World.canvas after
     = painted P (FromImage img)
         (fitDim (round64 P) (Image.width img)
            (fitScale (round64 P) 768 (Image.width img) (Image.height img)))
         (fitDim (round64 P) (Image.height img)
            (fitScale (round64 P) 768 (Image.width img) (Image.height img))).
Proof.
  intros Hread Hctx D Hd. cbv zeta. unfold handleFile, run, File.arrayBuffer.
  rewrite Hread, Hctx, D, Hd. simpl.
  destruct (analyzeImage_returns P img (World.canvas w)) as (analyzed & E & _).
  cbv zeta in E. unfold onload, bind, call, ret. rewrite E.
  destruct (classifyAnalyzed L analyzed) as [e | cls] eqn:C; simpl.
  - split; [reflexivity | split; [| reflexivity]].
    split; [| reflexivity]. intros _. eexists _, analyzed, e. split; [reflexivity | exact C].
  - split; [reflexivity | split; [| reflexivity]].
    split; [discriminate |].
    intros (c' & a & e & Ea & Ec). injection Ea as _ <-. rewrite C in Ec. discriminate.
Qed.

(** A PNG whose feature extraction throws: neither result nor error. *)
Lemma onload_failure_is_silent_witness :
  let after := handleFile Scenario.throwingLib Example.platform Example.pngFile
                          initialWorld in
  Ui.error (World.ui after) = None
  /\ (Ui.result (World.ui after) = None
      <-> exists (c' : Canvas.t) (analyzed : ImageData.t) (e : Thrown),
            analyzeImage Example.platform
              {| Image.width := 1; Image.height := 1; Image.pixels := [137; 137; 137; 255] |}
              (World.canvas initialWorld) = (c', inr analyzed)
            /\ classifyAnalyzed Scenario.throwingLib analyzed = inl e)
  /\ World.canvas after
     = painted Example.platform
         (FromImage {| Image.width := 1; Image.height := 1;
                       Image.pixels := [137; 137; 137; 255] |}) 1 1.
Proof.
  exact (onload_failure_is_silent Scenario.throwingLib Example.platform Example.pngFile
           initialWorld
           {| Image.width := 1; Image.height := 1; Image.pixels := [137; 137; 137; 255] |}
           eq_refl eq_refl eq_refl eq_refl).
Defined.


(** The DICOM branch, stage by stage. *)
Lemma dicomBranch_stages (L : Lib) (P : Platform) (arrayBuffer : list byte)
    (c : Canvas.t) :
  dicomBranch L P arrayBuffer c =
  match parseDicom L arrayBuffer with
  | inl e => (c, inl e)
  | inr parsed =>
      match checkParsed parsed with
      | inl e => (c, inl e)
      | inr info =>
          match analyzeParsed L P info c with
          | (c', inl e) => (c', inl e)
          | (c', inr analyzed) =>
              match classifyAnalyzed L analyzed with
              | inl e => (c', inl e)
              | inr classification => (c', inr (dicomResult info classification))
              end
          end
      end
  end.
Proof.
  unfold dicomBranch, classifyDicom, bind, call, ret.
  destruct (parseDicom L arrayBuffer) as [e | parsed]; [reflexivity |].
  destruct (checkParsed parsed) as [e | info]; [reflexivity |].
  destruct (analyzeParsed L P info c) as [c' [e | analyzed]]; [reflexivity |].
  destruct (classifyAnalyzed L analyzed); reflexivity.
Qed.

(** X5.  On the DICOM branch, for a file that has been read, the preview
    canvas is repainted exactly when lines 46-60 returned (the normalizer
    returned, its buffer was accepted by [new ImageData], and the temporary
    canvas had a context), whether or not the classification then succeeds:
    it then has the resized size and shows what [drawImage] painted on the
    erased canvas.  When the decoder, the guards or lines 46-60 fail, the
    canvas is left as it was and no result is set. *)
Theorem dicom_canvas_after_run (L : Lib) (P : Platform) (file : File.t) (w : World.t) :
  File.unreadable file = None ->
  hasContext2d P = true ->
  isLikelyDicom L (File.bytes file) = inr true ->
  (forall (info : DicomInfo.t) (imageData : ImageData.t),
      parseDicom L (File.bytes file) = inr (Some info) ->
      checkParsed (Some info) = inr info ->
      renderDicom L P info = inr imageData ->
      World.canvas (handleFile L P file w)
      = painted P (FromCanvas (tempCanvas info imageData))
                (dicomWidth P info) (dicomHeight P info))
  /\ (~ (exists (info : DicomInfo.t) (imageData : ImageData.t),
            parseDicom L (File.bytes file) = inr (Some info)
            /\ checkParsed (Some info) = inr info
            /\ renderDicom L P info = inr imageData) ->
      World.canvas (handleFile L P file w) = World.canvas w
      /\ Ui.result (World.ui (handleFile L P file w)) = None).
Proof.
  intros Hread Hctx D. unfold handleFile, run, File.arrayBuffer.
  rewrite Hread, Hctx, D. cbn [negb].
  rewrite dicomBranch_stages. split.
  - intros info imageData Hp Hc Hr. rewrite Hp, Hc.
    destruct (analyzeParsed_returns L P info imageData (World.canvas w) Hr)
      as (analyzed & E & _).
    rewrite E. destruct (classifyAnalyzed L analyzed); reflexivity.
  - intros No.
    destruct (parseDicom L (File.bytes file)) as [e | parsed] eqn:Hp; [split; reflexivity |].
    destruct (checkParsed parsed) as [e | info] eqn:Hc; [split; reflexivity |].
    destruct (checkParsed_inr _ _ Hc) as [-> _].
    destruct (renderDicom L P info) as [e | imageData] eqn:Hr.
    + rewrite (analyzeParsed_throws L P info e _ Hr). split; reflexivity.
    + exfalso. apply No. exists info, imageData. auto.
Qed.

(** After the example run the preview is two by two. *)
Lemma dicom_canvas_after_run_witness :
  World.canvas (handleFile Example.lib Example.platform Example.dicomFile initialWorld)
  = painted Example.platform
      (FromCanvas (tempCanvas Example.info
                     {| ImageData.data := Example.toRgba [0; 85; 170; 255];
                        ImageData.width := 2; ImageData.height := 2 |}))
      (dicomWidth Example.platform Example.info)
      (dicomHeight Example.platform Example.info).
Proof.
  exact (proj1 (dicom_canvas_after_run Example.lib Example.platform Example.dicomFile
                  initialWorld eq_refl eq_refl eq_refl)
               Example.info _ eq_refl eq_refl eq_refl).
Defined.

(** X6.  A file that has been read and is taken for DICOM yields a result
    if and only if every stage returns: the decoder returns a record, the
    record passes the guards, lines 46-60 return (the normalizer returns, its
    buffer is accepted by [new ImageData], and the temporary canvas has a
    context), and feature extraction and classification of the raster read
    back both return.  The result is then built from that record and that
    classification. *)
Theorem dicom_result_iff (L : Lib) (P : Platform) (file : File.t) (w : World.t)
    (r : Result.t) :
  File.unreadable file = None ->
  hasContext2d P = true ->
  isLikelyDicom L (File.bytes file) = inr true ->
  Ui.result (World.ui (handleFile L P file w)) = Some r
  <-> exists (info : DicomInfo.t) (imageData analyzed : ImageData.t)
             (classification : Classification.t),
        parseDicom L (File.bytes file) = inr (Some info)
        /\ checkParsed (Some info) = inr info
        /\ renderDicom L P info = inr imageData
        /\ snd (analyzeParsed L P info (World.canvas w)) = inr analyzed
        /\ classifyAnalyzed L analyzed = inr classification
        /\ r = dicomResult info classification.
Proof.
  intros Hread Hctx D. unfold handleFile, run, File.arrayBuffer.
  rewrite Hread, Hctx, D. cbn [negb].
  rewrite dicomBranch_stages. split.
  - destruct (parseDicom L (File.bytes file)) as [e | parsed] eqn:Hp; [discriminate |].
    destruct (checkParsed parsed) as [e | info] eqn:Hc; [discriminate |].
    destruct (checkParsed_inr _ _ Hc) as [-> _].
    destruct (renderDicom L P info) as [e | imageData] eqn:Hr.
    { rewrite (analyzeParsed_throws L P info e _ Hr). discriminate. }
    destruct (analyzeParsed L P info (World.canvas w)) as [c' [e | analyzed]] eqn:Ha;
      [discriminate |].
    destruct (classifyAnalyzed L analyzed) as [e | cls] eqn:Hk; [discriminate |].
    cbn [Ui.result World.ui]. intros E. injection E as <-.
    exists info, imageData, analyzed, cls. rewrite Ha.
    repeat match goal with |- _ /\ _ => split end; auto.
  - intros (info & imageData & analyzed & cls & Hp & Hc & Hr & Ha & Hk & ->).
    rewrite Hp, Hc.
    destruct (analyzeParsed L P info (World.canvas w)) as [c' res].
    simpl in Ha. subst res. rewrite Hk. reflexivity.
Qed.

(** The example study goes through every stage. *)
Lemma dicom_result_iff_witness :
  exists r : Result.t,
    Ui.result (World.ui (handleFile Example.lib Example.platform Example.dicomFile
                                    initialWorld)) = Some r
    /\ exists (info : DicomInfo.t) (imageData analyzed : ImageData.t)
              (classification : Classification.t),
        parseDicom Example.lib (File.bytes Example.dicomFile) = inr (Some info)
        /\ checkParsed (Some info) = inr info
        /\ renderDicom Example.lib Example.platform info = inr imageData
        /\ snd (analyzeParsed Example.lib Example.platform info
                  (World.canvas initialWorld)) = inr analyzed
        /\ classifyAnalyzed Example.lib analyzed = inr classification
        /\ r = dicomResult info classification.
Proof.
  eexists. split; [vm_compute; reflexivity |].
  apply (proj1 (dicom_result_iff Example.lib Example.platform Example.dicomFile
                  initialWorld _ eq_refl eq_refl eq_refl)).
  vm_compute. reflexivity.
Defined.


(** X7.  A result carries a metadata record exactly when the file was taken
    for DICOM; a result for a generic image has neither metadata nor
    modality, and the metadata of a DICOM result always has the nine
    properties. *)
Theorem metadata_marks_dicom (L : Lib) (P : Platform) (file : File.t) (w : World.t)
    (r : Result.t) :
  Ui.result (World.ui (handleFile L P file w)) = Some r ->
  (Result.meta r = None <-> isLikelyDicom L (File.bytes file) = inr false)
  /\ (isLikelyDicom L (File.bytes file) = inr false -> Result.modality r = None)
  /\ (forall meta : gmap string JsValue,
         Result.meta r = Some meta -> dom meta = list_to_set metaFields).
Proof.
  unfold handleFile, run, File.arrayBuffer.
  destruct (File.unreadable file); [discriminate |].
  destruct (hasContext2d P); cbn [negb]; [| discriminate].
  destruct (isLikelyDicom L (File.bytes file)) as [e | [|]]; [discriminate | |].
  - rewrite dicomBranch_stages.
    destruct (parseDicom L (File.bytes file)) as [e | parsed]; [discriminate |].
    destruct (checkParsed parsed) as [e | info]; [discriminate |].
    destruct (analyzeParsed L P info (World.canvas w)) as [c' [e | analyzed]];
      [discriminate |].
    destruct (classifyAnalyzed L analyzed) as [e | cls]; [discriminate |].
    cbn [Ui.result World.ui]. intros E. injection E as <-.
    cbn [dicomResult Result.meta Result.modality].
    split; [split; discriminate | split; [discriminate |]].
    intros meta E. injection E as <-. apply metaOf_fields.
  - destruct (decodeImage P (File.bytes file) (blobType file)) as [img |]; [| discriminate].
    unfold onload, bind, call, ret.
    destruct (analyzeImage P img (World.canvas w)) as [c' [e | analyzed]]; [discriminate |].
    destruct (classifyAnalyzed L analyzed) as [e | cls]; [discriminate |].
    cbn [Ui.result World.ui]. intros E. injection E as <-.
    cbn [Result.meta Result.modality].
    split; [split; reflexivity | split; [reflexivity | discriminate]].
Qed.

(** The PNG of the examples gets a result without metadata. *)
Lemma metadata_marks_dicom_witness :
  exists r : Result.t,
    Ui.result (World.ui (handleFile Example.lib Example.platform Example.pngFile
                                    initialWorld)) = Some r
    /\ (Result.meta r = None
        <-> isLikelyDicom Example.lib (File.bytes Example.pngFile) = inr false)
    /\ (isLikelyDicom Example.lib (File.bytes Example.pngFile) = inr false ->
        Result.modality r = None)
    /\ (forall meta : gmap string JsValue,
           Result.meta r = Some meta -> dom meta = list_to_set metaFields).
Proof.
  eexists. split; [vm_compute; reflexivity |].
  apply (metadata_marks_dicom Example.lib Example.platform Example.pngFile initialWorld).
  vm_compute. reflexivity.
Defined.

Lemma newImageData_inl (text : string -> string) (data : list Z) (sw sh : Z)
    (e : Thrown) :
  newImageData text data sw sh = inl e ->
  e = DOMException "InvalidStateError" (text "InvalidStateError")
  \/ e = DOMException "IndexSizeError" (text "IndexSizeError").
Proof.
  unfold newImageData. cbv zeta.
  destruct ((Z.of_nat (List.length data) =? 0)
            || negb (Z.of_nat (List.length data) mod 4 =? 0)).
  - intros E. injection E as <-. now left.
  - destruct ((toUint32 sw =? 0)
              || negb ((Z.of_nat (List.length data) / 4) mod toUint32 sw =? 0)).
    + intros E. injection E as <-. now right.
    + destruct (negb (Z.of_nat (List.length data) / 4 / toUint32 sw =? toUint32 sh)).
      * intros E. injection E as <-. now right.
      * discriminate.
Qed.

(** What lines 46-60 can throw: what the normalizer throws, the two
    exceptions of the constructor, and the [TypeError] of the call on a
    missing context. *)
Lemma renderDicom_inl (L : Lib) (P : Platform) (info : DicomInfo.t) (e : Thrown) :
  renderDicom L P info = inl e ->
  normalizeCall L info = inl e
  \/ e = DOMException "InvalidStateError" (exceptionText P "InvalidStateError")
  \/ e = DOMException "IndexSizeError" (exceptionText P "IndexSizeError")
  \/ e = TypeError (exceptionText P "TypeError").
Proof.
  unfold renderDicom.
  destruct (normalizeCall L info) as [e' | rgba]; [intros E; injection E as <-; now left |].
  destruct (newImageData _ rgba _ _) as [e' | img] eqn:Hi.
  - intros E. injection E as <-. apply newImageData_inl in Hi.
    destruct Hi as [-> | ->]; auto.
  - destruct (hasTempContext2d P (sizedTemp info)); [discriminate |].
    intros E. injection E as <-. auto.
Qed.

(** The text reported for an exception is its message, or 'Unexpected error'. *)
Lemma catchMessage_cases (e : Thrown) :
  catchMessage e = "Unexpected error"%string \/ catchMessage e = errorMessage e.
Proof.
  unfold catchMessage. destruct (String.eqb (errorMessage e) ""); [now left | now right].
Qed.

(** An error that is shown is the text of an exception that reached the
    [catch], or the literal of [img.onerror]. *)
Lemma error_is_caught (L : Lib) (P : Platform) (file : File.t) (w : World.t)
    (m : string) :
  Ui.error (World.ui (handleFile L P file w)) = Some m ->
  m = "Failed to load image"%string
  \/ exists e : Thrown, thrownBy L P file e /\ m = catchMessage e.
Proof.
  unfold handleFile, run, File.arrayBuffer, thrownBy.
  destruct (File.unreadable file) as [e |] eqn:Hread.
  { cbn. intros E. injection E as <-. right. exists e. auto. }
  destruct (hasContext2d P); cbn [negb];
    [| cbn; intros E; injection E as <-; right;
       exists (JsError "Canvas context unavailable"); split; [auto 10 | reflexivity]].
  destruct (isLikelyDicom L (File.bytes file)) as [e | [|]] eqn:D.
  - cbn. intros E. injection E as <-. right. exists e. auto.
  - rewrite dicomBranch_stages.
    destruct (parseDicom L (File.bytes file)) as [e | parsed] eqn:Hp.
    { cbn. intros E. injection E as <-. right. exists e. auto. }
    destruct (checkParsed parsed) as [e | info] eqn:Hc.
    { cbn. intros E. injection E as <-. right. exists e. split; [| reflexivity].
      unfold checkParsed in Hc. destruct parsed as [i |].
      - destruct (negb (truthyNumber (DicomInfo.rows i))
                  || negb (truthyNumber (DicomInfo.columns i))
                  || negb (truthyObject (DicomInfo.pixelData i))); [| discriminate].
        injection Hc as <-. auto 10.
      - injection Hc as <-. auto 10. }
    destruct (renderDicom L P info) as [e | imageData] eqn:Hr.
    { rewrite (analyzeParsed_throws L P info e _ Hr).
      cbn. intros E. injection E as <-. right. exists e. split; [| reflexivity].
      apply renderDicom_inl in Hr.
      destruct Hr as [Hn | [-> | [-> | ->]]]; eauto 15. }
    destruct (analyzeParsed_returns L P info imageData (World.canvas w) Hr)
      as (analyzed & E & _).
    rewrite E.
    destruct (classifyAnalyzed L analyzed) as [e | cls] eqn:Hk; [| discriminate].
    cbn. intros E'. injection E' as <-. right. exists e. split; [| reflexivity].
    unfold classifyAnalyzed in Hk.
    destruct (computeFeaturesFromImageData L analyzed) as [e' | features] eqn:Hf.
    + injection Hk as <-. eauto 10.
    + eauto 10.
  - destruct (decodeImage P (File.bytes file) (blobType file)) as [img |].
    + destruct (onload L P img (World.canvas w)) as [c' [e | r]]; discriminate.
    + cbn. intros E. injection E as <-. now left.
Qed.

(** X8.  Every error text the component can show is one of the five literals
    of [handleFile]; or the message of what the read of the file was
    rejected with, or of an exception thrown by one of the five library
    calls; or the text the browser attaches to an exception of
    [new ImageData] or to the [TypeError] of [putImageData] called on the
    missing context of the temporary canvas. *)
Theorem error_catalogue (L : Lib) (P : Platform) (file : File.t) (w : World.t)
    (m : string) :
  Ui.error (World.ui (handleFile L P file w)) = Some m ->
  In m ["Canvas context unavailable"; "Failed to parse DICOM"; "Missing pixel data";
        "Failed to load image"; "Unexpected error"]%string
  \/ (exists e : Thrown,
         m = errorMessage e
         /\ (File.unreadable file = Some e
             \/ isLikelyDicom L (File.bytes file) = inl e
             \/ parseDicom L (File.bytes file) = inl e
             \/ (exists info, normalizeCall L info = inl e)
             \/ (exists analyzed, computeFeaturesFromImageData L analyzed = inl e)
             \/ (exists features, classifyFeatures L features = inl e)))
  \/ m = exceptionText P "InvalidStateError"
  \/ m = exceptionText P "IndexSizeError"
  \/ m = exceptionText P "TypeError".
Proof.
  intros E. apply error_is_caught in E.
  destruct E as [-> | (e & Src & ->)]; [left; simpl; auto |].
  destruct (catchMessage_cases e) as [-> | ->]; [left; simpl; auto 10 |].
  unfold thrownBy in Src.
  destruct Src as [S | [S | [S | [S | [S | [S | Src]]]]]];
    try solve [right; left; exists e; split; [reflexivity | auto 10]].
  destruct Src as [-> | [-> | [-> | [-> | [-> | ->]]]]]; simpl; auto 10.
Qed.

(** A file whose read is rejected is reported with the rejection's text. *)
Lemma error_catalogue_witness :
  In "The file could not be read"%string
     ["Canvas context unavailable"; "Failed to parse DICOM"; "Missing pixel data";
      "Failed to load image"; "Unexpected error"]%string
  \/ (exists e : Thrown,
         "The file could not be read"%string = errorMessage e
         /\ (File.unreadable Scenario.lockedFile = Some e
             \/ isLikelyDicom Example.lib (File.bytes Scenario.lockedFile) = inl e
             \/ parseDicom Example.lib (File.bytes Scenario.lockedFile) = inl e
             \/ (exists info, normalizeCall Example.lib info = inl e)
             \/ (exists analyzed,
                    computeFeaturesFromImageData Example.lib analyzed = inl e)
             \/ (exists features, classifyFeatures Example.lib features = inl e)))
  \/ "The file could not be read"%string
     = exceptionText Example.platform "InvalidStateError"
  \/ "The file could not be read"%string
     = exceptionText Example.platform "IndexSizeError"
  \/ "The file could not be read"%string = exceptionText Example.platform "TypeError".
Proof.
  exact (error_catalogue Example.lib Example.platform Scenario.lockedFile initialWorld
           "The file could not be read" eq_refl).
Defined.


Lemma rnd_lower (rnd : Q -> Q) (x : Q) :
  Float64.Float64Rounding rnd ->
  (0 <= x)%Q -> (x <= Float64.big)%Q ->
  (x - Float64.u * x - Float64.eta <= rnd x)%Q.
Proof.
  intros F H0 Hb.
  assert (A : (Qabs x == x)%Q) by now apply Qabs_pos.
  pose proof (Float64.rnd_err rnd F x) as E. rewrite A in E. specialize (E Hb).
  apply Qabs_Qle_condition in E. lra.
Qed.

(** A side grows with the source side, at any scale that is not negative. *)
Lemma fitDim_mono (rnd : Q -> Q) (d1 d2 : Z) (s : Q) :
  Float64.Float64Rounding rnd -> (0 <= s)%Q -> d1 <= d2 ->
  fitDim rnd d1 s <= fitDim rnd d2 s.
Proof.
  intros F Hs Hd. unfold fitDim. apply Z.max_le_compat_l, Qfloor_resp_le.
  apply (Float64.rnd_mono rnd F). rewrite (Zle_Qle d1 d2) in Hd. nra.
Qed.

(** The rounded scale of an image that does not fit, from below. *)
Lemma fitScale_too_big_lower (rnd : Q -> Q) (maxDim w h : Z) :
  Float64.Float64Rounding rnd ->
  1 <= maxDim <= 2 ^ 50 -> maxDim < Z.max w h <= 2 ^ 53 ->
  (inject_Z maxDim - Float64.u * inject_Z maxDim - inject_Z (2 ^ 53) * Float64.eta
   <= inject_Z (Z.max w h) * fitScale rnd maxDim w h)%Q.
Proof.
  intros F [HD0 HD1] [Hm0 Hm1].
  set (m := Z.max w h) in *.
  assert (Hs : fitScale rnd maxDim w h
               = Qmin 1 (rnd (inject_Z maxDim / inject_Z m)%Q)).
  { unfold fitScale. fold m. destruct (Z.eqb_spec m 0); [lia | reflexivity]. }
  rewrite Hs. clear Hs.
  set (q := (inject_Z maxDim / inject_Z m)%Q).
  assert (Qm : (0 < inject_Z m)%Q)
    by (apply (Qlt_le_trans _ (inject_Z 1)); [reflexivity | rewrite <- Zle_Qle; lia]).
  assert (QD : (1 <= inject_Z maxDim)%Q)
    by (change 1%Q with (inject_Z 1); rewrite <- Zle_Qle; lia).
  assert (QDm : (inject_Z maxDim <= inject_Z m)%Q) by (rewrite <- Zle_Qle; lia).
  assert (Qm53 : (inject_Z m <= inject_Z (2 ^ 53))%Q) by (rewrite <- Zle_Qle; lia).
  assert (Hmq : (inject_Z m * q == inject_Z maxDim)%Q) by (unfold q; field; lra).
  assert (Hq0 : (0 <= q)%Q) by (unfold q; apply Qle_shift_div_l; lra).
  assert (Hq1 : (q <= 1)%Q) by (unfold q; apply Qle_shift_div_r; lra).
  assert (Hr1 : (rnd q <= 1)%Q).
  { rewrite <- (rnd_1 rnd F). now apply (Float64.rnd_mono rnd F). }
  assert (Hqb : (q <= Float64.big)%Q).
  { apply Qle_trans with 1%Q; [exact Hq1 |]. unfold Float64.big, Qle; simpl; lia. }
  pose proof (rnd_lower rnd q F Hq0 Hqb) as Hlow.
  assert (Hmin : (Qmin 1 (rnd q) == rnd q)%Q) by now apply Q.min_r.
  rewrite Hmin.
  assert (Hprod : (inject_Z m * (q - Float64.u * q - Float64.eta)
                   <= inject_Z m * rnd q)%Q).
  { apply Qmult_le_l; assumption. }
  assert (E0 : (0 <= Float64.eta)%Q) by (unfold Float64.eta, Qle; simpl; lia).
  assert (Hme : (inject_Z m * Float64.eta <= inject_Z (2 ^ 53) * Float64.eta)%Q).
  { apply Qmult_le_compat_r; assumption. }
  assert (Hexp : (inject_Z m * (q - Float64.u * q - Float64.eta)
                  == inject_Z maxDim - Float64.u * inject_Z maxDim
                     - inject_Z m * Float64.eta)%Q).
  { rewrite <- Hmq. ring. }
  rewrite Hexp in Hprod. lra.
Qed.

(** The longer side of an image that does not fit comes out at the bound or
    one pixel below it. *)
Lemma fitDim_longer_side (rnd : Q -> Q) (maxDim w h : Z) :
  Float64.Float64Rounding rnd ->
  1 <= maxDim <= 2 ^ 50 -> maxDim < Z.max w h <= 2 ^ 53 ->
  maxDim - 1 <= fitDim rnd (Z.max w h) (fitScale rnd maxDim w h) <= maxDim.
Proof.
  intros F HD Hm.
  destruct (fitScale_too_big rnd F maxDim w h HD Hm) as [[S0 S1] SB].
  pose proof (fitScale_too_big_lower rnd maxDim w h F HD Hm) as SL.
  set (s := fitScale rnd maxDim w h) in *.
  set (x := (inject_Z (Z.max w h) * s)%Q) in *.
  pose proof (u_times_dim maxDim ltac:(lia)) as [UD0 UD1].
  pose proof u_bounds as [U0 U1]. pose proof eta_bounds as [[E0 E1] [E2 E3]].
  assert (QD50 : (inject_Z maxDim <= inject_Z (2 ^ 50))%Q) by (rewrite <- Zle_Qle; lia).
  assert (QD1 : (1 <= inject_Z maxDim)%Q)
    by (change 1%Q with (inject_Z 1); rewrite <- Zle_Qle; lia).
  assert (X0 : (0 <= x)%Q) by lra.
  assert (X1 : (x <= inject_Z maxDim + (1 # 4))%Q) by lra.
  assert (Xb : (x <= Float64.big)%Q).
  { assert (B : (inject_Z (2 ^ 50) + (1 # 4) <= Float64.big)%Q)
      by (unfold Float64.big, Qle; simpl; lia).
    lra. }
  unfold fitDim. fold x. clearbody x.
  pose proof (rnd_upper rnd F x X0 Xb) as Hup.
  pose proof (rnd_lower rnd x F X0 Xb) as Hlo.
  assert (UX : (Float64.u * x <= 1 # 4)%Q).
  { assert (M : (Float64.u * x <= Float64.u * (inject_Z maxDim + (1 # 4)))%Q)
      by (apply Qmult_le_l_nonneg || (apply Qmult_le_compat_nonneg; split; lra) || nra).
    clear - M UD1 U1. lra. }
  split.
  - apply Z.max_le_iff. right.
    rewrite <- (Qfloor_Z (maxDim - 1)). apply Qfloor_resp_le.
    unfold Zminus. rewrite inject_Z_plus. change (inject_Z (- (1))) with (- (1))%Q. lra.
  - apply Z.max_lub; [lia |].
    pose proof (Qfloor_le (rnd x)) as Hfl.
    assert (Hz : (inject_Z (Qfloor (rnd x)) < inject_Z (maxDim + 1))%Q).
    { rewrite inject_Z_plus. change (inject_Z 1) with 1%Q. lra. }
    rewrite <- Zlt_Qlt in Hz. lia.
Qed.


Lemma fitDim_max (rnd : Q -> Q) (w h : Z) (s : Q) :
  Float64.Float64Rounding rnd -> (0 <= s)%Q ->
  Z.max (fitDim rnd w s) (fitDim rnd h s) = fitDim rnd (Z.max w h) s.
Proof.
  intros F Hs.
  destruct (Z.max_spec w h) as [[Hlt ->] | [Hle ->]].
  - apply Z.max_r, fitDim_mono; [exact F | exact Hs | lia].
  - apply Z.max_l, fitDim_mono; [exact F | exact Hs | lia].
Qed.

(** X9.  An image that does not fit is shrunk onto the bound: the longer
    side of the analyzed raster is 512 or 511 on the DICOM branch, 768 or
    767 on the generic-image branch (the floor taken after two rounded
    operations can lose one pixel, never more). *)
Theorem longer_side_reaches_bound (L : Lib) (P : Platform) :
  Float64.Float64Rounding (round64 P) ->
  (forall (info : DicomInfo.t) (c c' : Canvas.t) (analyzed : ImageData.t),
      safeInteger (number (DicomInfo.columns info)) ->
      safeInteger (number (DicomInfo.rows info)) ->
      512 < Z.max (number (DicomInfo.columns info)) (number (DicomInfo.rows info)) ->
      analyzeParsed L P info c = (c', inr analyzed) ->
      511 <= Z.max (ImageData.width analyzed) (ImageData.height analyzed) <= 512)
  /\ (forall (img : Image.t) (c c' : Canvas.t) (analyzed : ImageData.t),
         safeInteger (Image.width img) ->
         safeInteger (Image.height img) ->
         768 < Z.max (Image.width img) (Image.height img) ->
         analyzeImage P img c = (c', inr analyzed) ->
         767 <= Z.max (ImageData.width analyzed) (ImageData.height analyzed) <= 768).
Proof.
  intros F. unfold safeInteger. split.
  - intros info c c' analyzed Hk Hr Big Ha.
    apply analyzeParsed_inr in Ha. cbv zeta in Ha. destruct Ha as (_ & -> & ->).
    rewrite fitDim_max; [| exact F | apply fitScale_nonneg; (exact F || lia)].
    apply (fitDim_longer_side (round64 P) 512); [exact F | lia | lia].
  - intros img c c' analyzed Hw Hh Big Ha.
    apply analyzeImage_inr in Ha. cbv zeta in Ha. destruct Ha as (-> & ->).
    rewrite fitDim_max; [| exact F | apply fitScale_nonneg; (exact F || lia)].
    apply (fitDim_longer_side (round64 P) 768); [exact F | lia | lia].
Qed.

(** A picture of 1024 by 600 is analyzed at a longer side of 767 or 768. *)
Lemma longer_side_reaches_bound_witness :
  exists (c' : Canvas.t) (analyzed : ImageData.t),
    analyzeImage Example.platform Scenario.wide createCanvas = (c', inr analyzed)
    /\ 767 <= Z.max (ImageData.width analyzed) (ImageData.height analyzed) <= 768.
Proof.
  destruct (analyzeImage_returns Example.platform Scenario.wide createCanvas)
    as (analyzed & E & _).
  eexists _, analyzed. split; [exact E |].
  eapply (proj2 (longer_side_reaches_bound Example.lib Example.platform exact_rounding)
                Scenario.wide createCanvas); [| | | exact E].
  - unfold safeInteger. simpl. lia.
  - unfold safeInteger. simpl. lia.
  - simpl. lia.
Defined.

(** X10.  Resizing keeps the orientation: when the source is no wider than
    it is high, so is the analyzed raster, and the other way round; a square
    source gives a square raster. *)
Theorem resize_keeps_orientation (L : Lib) (P : Platform) :
  Float64.Float64Rounding (round64 P) ->
  (forall (info : DicomInfo.t) (c c' : Canvas.t) (analyzed : ImageData.t),
      0 <= number (DicomInfo.columns info) ->
      0 <= number (DicomInfo.rows info) ->
      analyzeParsed L P info c = (c', inr analyzed) ->
      (number (DicomInfo.columns info) <= number (DicomInfo.rows info) ->
       ImageData.width analyzed <= ImageData.height analyzed)
      /\ (number (DicomInfo.rows info) <= number (DicomInfo.columns info) ->
          ImageData.height analyzed <= ImageData.width analyzed))
  /\ (forall (img : Image.t) (c c' : Canvas.t) (analyzed : ImageData.t),
         0 <= Image.width img ->
         0 <= Image.height img ->
         analyzeImage P img c = (c', inr analyzed) ->
         (Image.width img <= Image.height img ->
          ImageData.width analyzed <= ImageData.height analyzed)
         /\ (Image.height img <= Image.width img ->
             ImageData.height analyzed <= ImageData.width analyzed)).
Proof.
  intros F. split.
  - intros info c c' analyzed Hk Hr Ha.
    apply analyzeParsed_inr in Ha. cbv zeta in Ha. destruct Ha as (_ & -> & ->).
    assert (S : (0 <= fitScale (round64 P) 512 (number (DicomInfo.columns info))
                        (number (DicomInfo.rows info)))%Q)
      by (apply fitScale_nonneg; (exact F || lia)).
    split; intros Le; apply fitDim_mono; assumption.
  - intros img c c' analyzed Hw Hh Ha.
    apply analyzeImage_inr in Ha. cbv zeta in Ha. destruct Ha as (-> & ->).
    assert (S : (0 <= fitScale (round64 P) 768 (Image.width img) (Image.height img))%Q)
      by (apply fitScale_nonneg; (exact F || lia)).
    split; intros Le; apply fitDim_mono; assumption.
Qed.

(** The picture of 1024 by 600 stays wider than high. *)
Lemma resize_keeps_orientation_witness :
  exists (c' : Canvas.t) (analyzed : ImageData.t),
    analyzeImage Example.platform Scenario.wide createCanvas = (c', inr analyzed)
    /\ ImageData.height analyzed <= ImageData.width analyzed.
Proof.
  destruct (analyzeImage_returns Example.platform Scenario.wide createCanvas)
    as (analyzed & E & _).
  eexists _, analyzed. split; [exact E |].
  eapply (proj2 (resize_keeps_orientation Example.lib Example.platform exact_rounding)
                Scenario.wide createCanvas); [| | exact E |]; simpl; lia.
Defined.


(** Rounding moves a value between 0 and 100 by less than [2e-8] and keeps
    it between 0 and 100. *)
Lemma rnd_percent (rnd : Q -> Q) (x : Q) :
  Float64.Float64Rounding rnd -> (0 <= x <= 100)%Q ->
  (0 <= rnd x <= 100)%Q
  /\ (x - (2 # 100000000) <= rnd x <= x + (2 # 100000000))%Q.
Proof.
  intros F [H0 H1].
  pose proof roundoff_is_tiny as [[U0 U1] [E0 E1]].
  assert (B : (x <= Float64.big)%Q).
  { apply Qle_trans with 100%Q; [exact H1 |]. unfold Float64.big, Qle; simpl; lia. }
  pose proof (rnd_upper rnd F x H0 B) as Hup.
  pose proof (rnd_lower rnd x F H0 B) as Hlo.
  assert (UX : (Float64.u * x <= 1 # 100000000)%Q) by nra.
  assert (Top : (rnd x <= rnd 100)%Q) by now apply (Float64.rnd_mono rnd F).
  assert (T100 : (rnd 100 == 100)%Q) by (apply (Float64.rnd_int rnd F 100); simpl; lia).
  pose proof (rnd_nonneg rnd F x H0) as Bot.
  repeat split; lra.
Qed.

(** The tenths shown for a percentage lie within half a tenth of it. *)
Lemma tenths_near (x : Q) :
  (0 <= x)%Q ->
  (x * 10 - (1 # 2) < inject_Z (tenths x) <= x * 10 + (1 # 2))%Q.
Proof.
  intros H. unfold tenths.
  assert (A : (Qabs x == x)%Q) by now apply Qabs_pos.
  assert (E : Qfloor (Qabs x * 10 + (1 # 2)) = Qfloor (x * 10 + (1 # 2))).
  { apply Qfloor_comp. rewrite A. reflexivity. }
  rewrite E.
  pose proof (Qfloor_le (x * 10 + (1 # 2))) as Lo.
  pose proof (Qlt_floor (x * 10 + (1 # 2))) as Hi.
  rewrite inject_Z_plus in Hi. change (inject_Z 1) with 1%Q in Hi. lra.
Qed.

Lemma toFixed1_nonneg (x : Q) : (0 <= x)%Q -> toFixed1 x = fixed1 (tenths x).
Proof.
  intros H. unfold toFixed1.
  assert (B : Qle_bool 0 x = true) by now apply Qle_bool_iff.
  rewrite B. reflexivity.
Qed.

(** X11.  For probabilities between 0 and 1 the two percentages are shown
    without a sign, with one decimal, between 0.0 and 100.0: the text is
    the digits of a number of tenths between 0 and 1000 with a point before
    the last digit. *)
Theorem percentages_in_range (rnd : Q -> Q) (r : Result.t) :
  Float64.Float64Rounding rnd ->
  (0 <= Result.probabilityCT r <= 1)%Q ->
  (0 <= Result.probabilityMRI r <= 1)%Q ->
  exists n1 n2 : Z,
    probabilities rnd (Some r) = Some (fixed1 n1, fixed1 n2)
    /\ 0 <= n1 <= 1000 /\ 0 <= n2 <= 1000.
Proof.
  intros F [C0 C1] [M0 M1].
  set (x1 := rnd (Result.probabilityCT r * 100)%Q).
  set (x2 := rnd (Result.probabilityMRI r * 100)%Q).
  destruct (rnd_percent rnd (Result.probabilityCT r * 100) F ltac:(lra)) as [[A0 A1] _].
  destruct (rnd_percent rnd (Result.probabilityMRI r * 100) F ltac:(lra)) as [[B0 B1] _].
  fold x1 in A0, A1. fold x2 in B0, B1.
  exists (tenths x1), (tenths x2).
  split; [unfold probabilities; fold x1 x2; now rewrite !toFixed1_nonneg |].
  pose proof (tenths_near x1 A0) as [L1 H1]. pose proof (tenths_near x2 B0) as [L2 H2].
  assert (Z1 : (inject_Z (-1) < inject_Z (tenths x1) < inject_Z 1001)%Q)
    by (change (inject_Z (-1)) with (-1 # 1)%Q; change (inject_Z 1001) with 1001%Q; lra).
  assert (Z2 : (inject_Z (-1) < inject_Z (tenths x2) < inject_Z 1001)%Q)
    by (change (inject_Z (-1)) with (-1 # 1)%Q; change (inject_Z 1001) with 1001%Q; lra).
  rewrite <- !Zlt_Qlt in Z1, Z2. lia.
Qed.

(** Probabilities 0.0005 and 0.9995 are shown as 0.1 and 100.0. *)
Lemma percentages_in_range_witness :
  exists n1 n2 : Z,
    probabilities Float64.exact (Some Scenario.lopsided) = Some (fixed1 n1, fixed1 n2)
    /\ 0 <= n1 <= 1000 /\ 0 <= n2 <= 1000.
Proof.
  apply (percentages_in_range Float64.exact Scenario.lopsided exact_rounding).
  - unfold Qle; simpl; lia.
  - unfold Qle; simpl; lia.
Defined.

(** X12.  When the two probabilities are between 0 and 1 and add up to 1
    (within [1e-9]), the two percentages shown add up to 100.0 give or take
    one tenth: the tenths add up to 999, 1000 or 1001. *)
Theorem percentages_add_up (rnd : Q -> Q) (r : Result.t) :
  Float64.Float64Rounding rnd ->
  (0 <= Result.probabilityCT r <= 1)%Q ->
  (0 <= Result.probabilityMRI r <= 1)%Q ->
  (Qabs (Result.probabilityCT r + Result.probabilityMRI r - 1) <= 1 # 1000000000)%Q ->
  exists n1 n2 : Z,
    probabilities rnd (Some r) = Some (fixed1 n1, fixed1 n2)
    /\ 999 <= n1 + n2 <= 1001.
Proof.
  intros F [C0 C1] [M0 M1] Sum. apply Qabs_Qle_condition in Sum.
  set (x1 := rnd (Result.probabilityCT r * 100)%Q).
  set (x2 := rnd (Result.probabilityMRI r * 100)%Q).
  destruct (rnd_percent rnd (Result.probabilityCT r * 100) F ltac:(lra)) as [[A0 A1] [A2 A3]].
  destruct (rnd_percent rnd (Result.probabilityMRI r * 100) F ltac:(lra)) as [[B0 B1] [B2 B3]].
  fold x1 in A0, A1, A2, A3. fold x2 in B0, B1, B2, B3.
  exists (tenths x1), (tenths x2).
  split; [unfold probabilities; fold x1 x2; now rewrite !toFixed1_nonneg |].
  pose proof (tenths_near x1 A0) as [L1 H1]. pose proof (tenths_near x2 B0) as [L2 H2].
  assert (Z1 : (inject_Z 998 < inject_Z (tenths x1 + tenths x2) < inject_Z 1002)%Q).
  { rewrite inject_Z_plus.
    change (inject_Z 998) with 998%Q; change (inject_Z 1002) with 1002%Q. lra. }
  rewrite <- !Zlt_Qlt in Z1. lia.
Qed.

(** Probabilities 0.0005 and 0.9995 are shown as 0.1 and 100.0, which add up
    to 100.1. *)
Lemma percentages_add_up_witness :
  probabilities Float64.exact (Some Scenario.lopsided)
  = Some ("0.1"%string, "100.0"%string)
  /\ exists n1 n2 : Z,
       probabilities Float64.exact (Some Scenario.lopsided) = Some (fixed1 n1, fixed1 n2)
       /\ 999 <= n1 + n2 <= 1001.
Proof.
  split; [vm_compute; reflexivity |].
  apply (percentages_add_up Float64.exact Scenario.lopsided exact_rounding).
  - unfold Qle; simpl; lia.
  - unfold Qle; simpl; lia.
  - apply Qabs_Qle_condition. unfold Qle; simpl; lia.
Defined.


Lemma session_settled (L : Lib) (P : Platform) (selections : list (list File.t))
    (w : World.t) :
  settled (World.ui w) -> settled (World.ui (session L P selections w)).
Proof.
  unfold session. revert w.
  induction selections as [| files rest IH]; intros w Hw; simpl; [exact Hw |].
  apply IH. destruct files as [| file more]; simpl;
    [exact Hw | apply handleFile_settled].
Qed.

Lemma initialWorld_settled : settled (World.ui initialWorld).
Proof. unfold settled, initialWorld. simpl. repeat split; auto; discriminate. Qed.

Lemma truthyString_nonempty (s : option string) :
  (forall m : string, s = Some m -> m <> ""%string) -> truthyString s = s.
Proof.
  intros H. destruct s as [m |]; [| reflexivity]. simpl.
  destruct (String.eqb_spec m ""); [| reflexivity].
  now destruct (H m eq_refl).
Qed.

(** X13.  What the component shows between uploads: after any sequence of
    selections the button is enabled and labelled "Choose Image or DICOM",
    the error box shows exactly the stored error, the error box and the
    result box are never shown together, and a result box that is shown is
    not dimmed and carries both percentages. *)
Theorem view_between_uploads (rnd : Q -> Q) (L : Lib) (P : Platform)
    (selections : list (list File.t)) :
  View.buttonDisabled (render rnd (World.ui (session L P selections initialWorld))) = false
  /\ View.buttonLabel (render rnd (World.ui (session L P selections initialWorld)))
     = "Choose Image or DICOM"%string
  /\ View.errorBox (render rnd (World.ui (session L P selections initialWorld)))
     = Ui.error (World.ui (session L P selections initialWorld))
  /\ (View.errorBox (render rnd (World.ui (session L P selections initialWorld))) = None
      \/ View.resultBox (render rnd (World.ui (session L P selections initialWorld))) = None)
  /\ (forall rv : ResultView.t,
         View.resultBox (render rnd (World.ui (session L P selections initialWorld)))
         = Some rv ->
         ResultView.dimmed rv = false
         /\ exists ct mri : string, ResultView.percentages rv = Some (ct, mri)).
Proof.
  pose proof (session_settled L P selections initialWorld initialWorld_settled)
    as (Hl & Hre & Hm).
  destruct (World.ui (session L P selections initialWorld)) as [res err loading].
  simpl in Hl, Hre, Hm. subst loading. unfold render. cbn.
  rewrite (truthyString_nonempty err Hm).
  repeat match goal with |- _ /\ _ => split end; try reflexivity.
  - destruct Hre as [-> | ->]; [right | left]; reflexivity.
  - intros rv E. destruct res as [r |]; [| discriminate].
    injection E as <-. cbn. split; [reflexivity | eauto].
Qed.

Lemma written_lookup (meta : gmap string JsValue) (k : string) :
  written meta !! k
  = match meta !! k with
    | Some JsUndefined | None => None
    | Some v => Some v
    end.
Proof.
  unfold written. rewrite lookup_omap.
  destruct (meta !! k) as [[| s | q] |]; reflexivity.
Qed.

Lemma written_dom (meta : gmap string JsValue) : dom (written meta) ⊆ dom meta.
Proof.
  intros k. rewrite !elem_of_dom, written_lookup.
  destruct (meta !! k) as [[| s | q] |]; intros [v E]; try discriminate; eauto.
Qed.

(** X14.  The metadata block of a DICOM result.  It is always shown, holds
    only properties among the nine of the record, always holds [rows] and
    [columns] (two numbers that are not 0), and holds each of the other
    properties exactly when the decoder gave it a value; the modality line
    is shown exactly when the decoder gave a modality that is not the empty
    text. *)
Theorem shown_metadata (rnd : Q -> Q) (L : Lib) (P : Platform) (file : File.t)
    (w : World.t) (r : Result.t) :
  isLikelyDicom L (File.bytes file) = inr true ->
  Ui.result (World.ui (handleFile L P file w)) = Some r ->
  exists (info : DicomInfo.t) (rv : ResultView.t) (shown : gmap string JsValue)
         (rows columns : Z),
    parseDicom L (File.bytes file) = inr (Some info)
    /\ View.resultBox (render rnd (World.ui (handleFile L P file w))) = Some rv
    /\ ResultView.metadata rv = Some shown
    /\ dom shown ⊆ list_to_set metaFields
    /\ shown !! "rows"%string = Some (JsNumber (inject_Z rows)) /\ rows <> 0
    /\ shown !! "columns"%string = Some (JsNumber (inject_Z columns)) /\ columns <> 0
    /\ shown !! "modality"%string = option_map JsString (DicomInfo.modality info)
    /\ shown !! "transferSyntax"%string
       = option_map JsString (DicomInfo.transferSyntax info)
    /\ shown !! "windowCenter"%string = option_map JsNumber (DicomInfo.windowCenter info)
    /\ shown !! "windowWidth"%string = option_map JsNumber (DicomInfo.windowWidth info)
    /\ shown !! "rescaleSlope"%string = option_map JsNumber (DicomInfo.rescaleSlope info)
    /\ shown !! "rescaleIntercept"%string
       = option_map JsNumber (DicomInfo.rescaleIntercept info)
    /\ shown !! "frames"%string
       = option_map (fun n => JsNumber (inject_Z n)) (DicomInfo.numberOfFrames info)
    /\ ResultView.modalityLine rv = truthyString (DicomInfo.modality info).
Proof.
  intros D. unfold handleFile, run, File.arrayBuffer.
  destruct (File.unreadable file); [discriminate |]. rewrite D.
  destruct (hasContext2d P); cbn [negb]; [| discriminate].
  rewrite dicomBranch_stages.
  destruct (parseDicom L (File.bytes file)) as [e | parsed]; [discriminate |].
  destruct (checkParsed parsed) as [e | info] eqn:Hc; [discriminate |].
  destruct (checkParsed_inr _ _ Hc) as (-> & Hr & Hk & [rows Er] & [cols Ek] & _).
  destruct (analyzeParsed L P info (World.canvas w)) as [c' [e | analyzed]];
    [discriminate |].
  destruct (classifyAnalyzed L analyzed) as [e | cls]; [discriminate |].
  cbn [Ui.result World.ui]. intros E. injection E as <-.
  rewrite Er in Hr. rewrite Ek in Hk. simpl in Hr, Hk.
  pose proof (metaOf_values info)
    as (V1 & V2 & V3 & V4 & V5 & V6 & V7 & V8 & V9).
  eexists info, _, (written (metaOf info)), rows, cols.
  split; [reflexivity |]. split; [reflexivity |]. split; [reflexivity |].
  split; [rewrite <- (metaOf_fields info); apply written_dom |].
  rewrite !written_lookup, V1, V2, V3, V4, V5, V6, V7, V8, V9, Er, Ek.
  repeat match goal with |- _ /\ _ => split end;
    try assumption; try reflexivity;
    match goal with |- context [option_map _ ?o] => destruct o; reflexivity end.
Qed.

(** The example study: its metadata block shows the side lengths 2 and 2. *)
Lemma shown_metadata_witness :
  exists (info : DicomInfo.t) (rv : ResultView.t) (shown : gmap string JsValue)
         (rows columns : Z),
    parseDicom Example.lib (File.bytes Example.dicomFile) = inr (Some info)
    /\ View.resultBox (render Float64.exact
         (World.ui (handleFile Example.lib Example.platform Example.dicomFile
                               initialWorld))) = Some rv
    /\ ResultView.metadata rv = Some shown
    /\ dom shown ⊆ list_to_set metaFields
    /\ shown !! "rows"%string = Some (JsNumber (inject_Z rows)) /\ rows <> 0
    /\ shown !! "columns"%string = Some (JsNumber (inject_Z columns)) /\ columns <> 0
    /\ shown !! "modality"%string = option_map JsString (DicomInfo.modality info)
    /\ shown !! "transferSyntax"%string
       = option_map JsString (DicomInfo.transferSyntax info)
    /\ shown !! "windowCenter"%string = option_map JsNumber (DicomInfo.windowCenter info)
    /\ shown !! "windowWidth"%string = option_map JsNumber (DicomInfo.windowWidth info)
    /\ shown !! "rescaleSlope"%string = option_map JsNumber (DicomInfo.rescaleSlope info)
    /\ shown !! "rescaleIntercept"%string
       = option_map JsNumber (DicomInfo.rescaleIntercept info)
    /\ shown !! "frames"%string
       = option_map (fun n => JsNumber (inject_Z n)) (DicomInfo.numberOfFrames info)
    /\ ResultView.modalityLine rv = truthyString (DicomInfo.modality info).
Proof.
  eapply (shown_metadata Float64.exact Example.lib Example.platform Example.dicomFile
            initialWorld).
  - reflexivity.
  - vm_compute. reflexivity.
Defined.


Lemma handleFile_ui_from_anywhere (L : Lib) (P : Platform) (file : File.t)
    (w w' : World.t) :
  World.ui (handleFile L P file w) = World.ui (handleFile L P file w').
Proof.
  unfold handleFile.
  destruct (run_blind L P file) as [[o H] | [k [o H]]]; rewrite !H; reflexivity.
Qed.

Lemma session_empty_selections (L : Lib) (P : Platform)
    (selections : list (list File.t)) (w : World.t) :
  Forall (fun files => files = []) selections -> session L P selections w = w.
Proof.
  unfold session. intros H. revert w.
  induction H as [| files rest -> _ IH]; intros w; simpl; [reflexivity | apply IH].
Qed.

(** X15.  The component state after a session is decided by one file: the
    first file of the last selection that is not empty.  Earlier uploads,
    the other files of that selection and later empty selections leave no
    trace in result, error and loading flag. *)
Theorem session_shows_last_file (L : Lib) (P : Platform)
    (before later : list (list File.t)) (file : File.t) (more : list File.t) :
  Forall (fun files => files = []) later ->
  World.ui (session L P (before ++ (file :: more) :: later) initialWorld)
  = World.ui (handleFile L P file initialWorld).
Proof.
  intros Empty. unfold session. rewrite fold_left_app. cbn [fold_left onChange].
  fold (session L P later
          (handleFile L P file
             (fold_left (fun w files => onChange L P files w) before initialWorld))).
  rewrite (session_empty_selections L P later _ Empty).
  apply handleFile_ui_from_anywhere.
Qed.

(** A PNG, then the example study together with a second file, then an
    empty selection: the state is that of the study alone. *)
Lemma session_shows_last_file_witness :
  World.ui (session Example.lib Example.platform
              ([[Example.pngFile]] ++ (Example.dicomFile :: [Example.pngFile]) :: [[]])
              initialWorld)
  = World.ui (handleFile Example.lib Example.platform Example.dicomFile initialWorld).
Proof.
  apply (session_shows_last_file Example.lib Example.platform
           [[Example.pngFile]] [[]] Example.dicomFile [Example.pngFile]).
  repeat constructor.
Defined.
